(** * CAN_Pressure: the data acquisition firmware, embedded in Rocq

    A shallow embedding of [software_can_circuit_python.py]
    (class [DataAcquisitionSystem]): ADC sampling through SPI0 and the
    16-way multiplexer, CSV logging to the SD card, and the MCP2515 CAN
    link on SPI1.

    The program is a sequence of writes to pins, SPI buses and the file
    system, interleaved with updates of [self.adc_data].  A method is
    embedded as a function from the state before the call to its outcome
    (normal return, a Python exception, or a busy-wait that never ends),
    the state after it, and the list of hardware events it emitted. *)

From Stdlib Require Import ZArith List String DecimalString Lia Bool.
From stdpp Require Import base list numbers.

Local Open Scope Z_scope.

(** ** Hardware vocabulary *)

(** The two [busio.SPI] objects. *)
Inductive Bus := SPI0 | SPI1.

(** The [digitalio.DigitalInOut] outputs created by [__init__]. *)
Inductive Pin :=
| SD_CS | ADC_CS | CAN_CS | MUX_CS
| MUX_S0 | MUX_S1 | MUX_S2 | MUX_S3.

(** File modes used with [open]. *)
Inductive Mode := ModeW | ModeA.

(** The Python exceptions the program can meet. All of them are
    subclasses of [Exception]. *)
Inductive Exn :=
| ValueError      (* bytes()/bytearray() given an int outside 0..255 *)
| IndexError      (* list assignment index out of range *)
| StructError     (* struct.pack('>H', v) with v outside 0..65535 *)
| OSError         (* os.listdir / os.stat / open / SDCard() / VfsFat() *)
| MountError      (* whatever storage.mount raises *)
| AttributeError. (* self.vfs read when __init__ never bound it *)

(** What the outside world can observe of a run, in program order.
    Delays are kept in microseconds ([time.sleep(0.000005)] is
    [Sleep 5]); SPI is always configured with phase 0 and polarity 0, so
    only the baud rate is recorded; calls into [os] and [storage] carry
    whether they succeeded. [Console msg] is a printed line with a fixed
    text; [ConsoleExn msg e] is the line of [print(f"<msg>{e}")], whose
    tail is whatever text the exception [e] carries. *)
Inductive Event :=
| SetPin (p : Pin) (v : bool)
| Sleep (us : Z)
| Configure (b : Bus) (baudrate : Z)
| SpiWrite (b : Bus) (out : list Z)
| SpiExchange (b : Bus) (out : list Z) (inp : list Z)
| Console (msg : string)
| ConsoleExn (msg : string) (e : Exn)
| FsListdir (ok : bool)
| FsMount (ok : bool)
| FsStat (ok : bool)
| FsOpen (m : Mode) (ok : bool).

(** What reaching for the SD volume leads to. [Mounts]: the card
    initialises and [storage.mount] succeeds. [MountRaises]: the card
    initialises, so [self.vfs] gets bound, but [storage.mount] raises.
    [Unbound]: [SDCard()] or [VfsFat()] raises at construction, so
    [storage.mount] is not reached there and [self.vfs] is never bound. *)
Inductive Volume := Mounts | MountRaises | Unbound.

(** The storage volume behind [/sd], with the ways it can refuse service
    and the content of [/sd/adc_log.csv] ([None]: no such file). *)
Record Storage := mkStorage {
  listable  : bool;            (* os.listdir("/sd") succeeds *)
  mounting  : Volume;          (* what a mount of the volume leads to *)
  writable  : bool;            (* open(log_path, ...) succeeds *)
  log_file  : option string
}.

(** [storage.mount(self.vfs, "/sd")] succeeds. *)
Definition mountable (s : Storage) : bool :=
  match mounting s with Mounts => true | _ => false end.

(** The state a method runs in: the object's [adc_data], the two bus
    locks, the bytes the ADC will clock out on MISO for each exchange to
    come ([adc_wire n] answers exchange number [n]; [adc_seq] counts the
    exchanges done), and the storage volume. *)
Record World := mkWorld {
  adc_data    : list Z;
  spi0_locked : bool;
  spi1_locked : bool;
  adc_wire    : nat -> Z * Z;
  adc_seq     : nat;
  sd          : Storage
}.

Definition with_adc_data (l : list Z) (w : World) : World :=
  mkWorld l (spi0_locked w) (spi1_locked w) (adc_wire w) (adc_seq w) (sd w).

Definition with_lock (b : Bus) (v : bool) (w : World) : World :=
  match b with
  | SPI0 => mkWorld (adc_data w) v (spi1_locked w) (adc_wire w) (adc_seq w) (sd w)
  | SPI1 => mkWorld (adc_data w) (spi0_locked w) v (adc_wire w) (adc_seq w) (sd w)
  end.

Definition with_adc_seq (n : nat) (w : World) : World :=
  mkWorld (adc_data w) (spi0_locked w) (spi1_locked w) (adc_wire w) n (sd w).

Definition with_sd (s : Storage) (w : World) : World :=
  mkWorld (adc_data w) (spi0_locked w) (spi1_locked w) (adc_wire w) (adc_seq w) s.

Definition locked (b : Bus) (w : World) : bool :=
  match b with SPI0 => spi0_locked w | SPI1 => spi1_locked w end.

(** ** The monad of methods *)

Inductive Outcome (A : Type) :=
| Ret (a : A)        (* normal completion *)
| Raise (e : Exn)    (* an exception propagates to the caller *)
| Spin.              (* [while not try_lock(): pass] on a held lock *)
Arguments Ret {A} a.
Arguments Raise {A} e.
Arguments Spin {A}.

Definition M (A : Type) : Type := World -> Outcome A * World * list Event.

Definition ret {A} (a : A) : M A := fun w => (Ret a, w, []).

Definition raise {A} (e : Exn) : M A := fun w => (Raise e, w, []).

Definition bind {A B} (m : M A) (k : A -> M B) : M B :=
  fun w =>
    match m w with
    | (Ret a, w1, ev1) =>
        match k a w1 with (o, w2, ev2) => (o, w2, ev1 ++ ev2) end
    | (Raise e, w1, ev1) => (Raise e, w1, ev1)
    | (Spin, w1, ev1) => (Spin, w1, ev1)
    end.

Declare Scope prog_scope.
Delimit Scope prog_scope with prog.
Notation "'let*' x ':=' c 'in' k" := (bind c (fun x => k))
  (at level 10, x name, c at level 100, k at level 200) : prog_scope.
Notation "c1 ;; c2" := (bind c1 (fun _ => c2))
  (at level 100, c2 at level 200, right associativity) : prog_scope.
Local Open Scope prog_scope.

Definition emit (e : Event) : M unit := fun w => (Ret tt, w, [e]).

Definition get {A} (f : World -> A) : M A := fun w => (Ret (f w), w, []).

Definition modify (f : World -> World) : M unit := fun w => (Ret tt, f w, []).

(** [try: body finally: fin].  The cleanup runs after a normal return and
    after an exception, which is then raised again; a body that never
    returns never reaches it. *)
Definition try_finally {A} (body : M A) (fin : M unit) : M A :=
  fun w =>
    match body w with
    | (Spin, w1, ev1) => (Spin, w1, ev1)
    | (o, w1, ev1) =>
        match fin w1 with
        | (Ret _, w2, ev2) => (o, w2, ev1 ++ ev2)
        | (Raise e, w2, ev2) => (Raise e, w2, ev1 ++ ev2)
        | (Spin, w2, ev2) => (Spin, w2, ev1 ++ ev2)
        end
    end.

(** [try: body except <class>: handler], [catches] telling which
    exceptions the clause covers. *)
Definition try_except {A} (body : M A) (catches : Exn -> bool)
    (handler : Exn -> M A) : M A :=
  fun w =>
    match body w with
    | (Raise e, w1, ev1) =>
        if catches e
        then match handler e w1 with (o, w2, ev2) => (o, w2, ev1 ++ ev2) end
        else (Raise e, w1, ev1)
    | r => r
    end.

Definition is_OSError (e : Exn) : bool :=
  match e with OSError => true | _ => false end.

(** [except Exception] covers every exception of this model. *)
Definition is_Exception (e : Exn) : bool := true.

(** [for x in xs: body x] *)
Fixpoint for_each {A} (xs : list A) (body : A -> M unit) : M unit :=
  match xs with
  | [] => ret tt
  | x :: xs' => body x ;; for_each xs' body
  end.

(** ** Python primitives *)

(** [range(start, stop)] and [range(start, stop, step)] for a positive
    step, as lists. *)
Definition range (start stop : Z) : list Z :=
  map (fun k => start + Z.of_nat k) (seq 0 (Z.to_nat (stop - start))).

Definition range_step (start stop step : Z) : list Z :=
  map (fun k => start + Z.of_nat k * step)
      (seq 0 (Z.to_nat ((stop - start + step - 1) / step))).

Definition is_byte (z : Z) : bool := (0 <=? z) && (z <=? 255).

(** [bytes([...])] and [bytearray([...])]: each int must fit a byte. *)
Definition bytes (l : list Z) : M (list Z) :=
  if forallb is_byte l then ret l else raise ValueError.

(** [buffer.extend(data)] *)
Definition extend (buffer data : list Z) : M (list Z) :=
  if forallb is_byte data then ret (buffer ++ data) else raise ValueError.

(** [l[i] = v] on a Python list: negative indices count from the end,
    anything else out of range raises [IndexError]. *)
Definition setitem (l : list Z) (i v : Z) : M (list Z) :=
  let n := Z.of_nat (length l) in
  if (0 <=? i) && (i <? n) then ret (<[Z.to_nat i := v]> l)
  else if (- n <=? i) && (i <? 0) then ret (<[Z.to_nat (n + i) := v]> l)
  else raise IndexError.

(** [struct.pack(">H", value)]: two bytes, most significant first. *)
Definition pack_H (value : Z) : M (list Z) :=
  if (0 <=? value) && (value <=? 65535)
  then ret [Z.shiftr value 8; Z.land value 255]
  else raise StructError.

(** [f"{value}"] for an int. *)
Definition str (value : Z) : string :=
  NilZero.string_of_int (Z.to_int value).

(** [while not spi.try_lock(): pass].  Nobody else releases the lock in
    this single-threaded program, so a held lock means waiting forever. *)
Definition lock (b : Bus) : M unit :=
  fun w => if locked b w then (Spin, w, []) else (Ret tt, with_lock b true w, []).

Definition unlock (b : Bus) : M unit := modify (with_lock b false).

Definition sleep (us : Z) : M unit := emit (Sleep us).

Definition set_pin (p : Pin) (v : bool) : M unit := emit (SetPin p v).

Definition spi_configure (b : Bus) (baudrate : Z) : M unit :=
  emit (Configure b baudrate).

Definition spi_write (b : Bus) (out : list Z) : M unit :=
  emit (SpiWrite b out).

(** [self.spi0.write_readinto(out, result)] with the ADC selected: the
    two bytes read are the next pair on the ADC's data line. *)
Definition spi0_write_readinto (out : list Z) : M (list Z) :=
  fun w =>
    let result := [fst (adc_wire w (adc_seq w)); snd (adc_wire w (adc_seq w))] in
    (Ret result, with_adc_seq (S (adc_seq w)) w, [SpiExchange SPI0 out result]).

Definition print (msg : string) : M unit := emit (Console msg).

(** [print(f"<msg>{e}")] *)
Definition print_exn (msg : string) (e : Exn) : M unit := emit (ConsoleExn msg e).

(** ** Analog sampler *)

Definition set_mux_channel (channel : Z) : M unit :=
  set_pin MUX_CS false ;;
  set_pin MUX_S0 (negb (Z.land channel 1 =? 0)) ;;
  set_pin MUX_S1 (negb (Z.land (Z.shiftr channel 1) 1 =? 0)) ;;
  set_pin MUX_S2 (negb (Z.land (Z.shiftr channel 2) 1 =? 0)) ;;
  set_pin MUX_S3 (negb (Z.land (Z.shiftr channel 3) 1 =? 0)) ;;
  sleep 5.

(** The command byte of [read_adc_channel]. *)
Definition adc_command (channel : Z) : Z :=
  Z.lor 128 (Z.shiftl (Z.land channel 7) 4).

(** The conversion of the two bytes read back into a reading. *)
Definition adc_value (result : list Z) : Z :=
  Z.lor (Z.shiftl (Z.land (nth 0 result 0) 15) 8) (nth 1 result 0).

Definition read_adc_channel (channel : Z) : M Z :=
  let command := adc_command channel in
  set_pin ADC_CS false ;;
  sleep 1 ;;
  lock SPI0 ;;
  let* result :=
    try_finally
      (spi_configure SPI0 2000000 ;;
       let* out := bytes [command; 0] in
       spi0_write_readinto out)
      (unlock SPI0) in
  set_pin ADC_CS true ;;
  let value := adc_value result in
  ret value.

Definition sample_all_channels : M unit :=
  for_each (range 1 8) (fun i =>
    let* v := read_adc_channel i in
    let* data := get adc_data in
    let* data' := setitem data i v in
    modify (with_adc_data data')) ;;
  for_each (range 0 16) (fun i =>
    set_mux_channel i ;;
    sleep 50 ;;
    let* v := read_adc_channel 0 in
    let* data := get adc_data in
    let* data' := setitem data (i + 7) v in
    modify (with_adc_data data')).

(** ** Storage sink *)

Definition newline : string := String (Ascii.ascii_of_nat 10) EmptyString.

Definition set_listable (v : bool) (s : Storage) : Storage :=
  mkStorage v (mounting s) (writable s) (log_file s).

Definition set_log_file (f : option string) (s : Storage) : Storage :=
  mkStorage (listable s) (mounting s) (writable s) f.

(** [os.listdir("/sd")] *)
Definition listdir : M unit :=
  fun w =>
    if listable (sd w) then (Ret tt, w, [FsListdir true])
    else (Raise OSError, w, [FsListdir false]).

(** [adafruit_sdcard.SDCard(self.spi0, self.sd_cs)] followed by
    [storage.VfsFat(self.sdcard)], which binds [self.vfs]. *)
Definition sdcard_init : M unit :=
  fun w =>
    match mounting (sd w) with
    | Unbound => (Raise OSError, w, [])
    | _ => (Ret tt, w, [])
    end.

(** [storage.mount(self.vfs, "/sd")]. The argument is read first: with
    [self.vfs] unbound that raises [AttributeError] and [storage.mount] is
    not called. *)
Definition mount : M unit :=
  fun w =>
    match mounting (sd w) with
    | Mounts => (Ret tt, with_sd (set_listable true (sd w)) w, [FsMount true])
    | MountRaises => (Raise MountError, w, [FsMount false])
    | Unbound => (Raise AttributeError, w, [])
    end.

(** [os.stat(log_path)] *)
Definition stat : M unit :=
  fun w =>
    match log_file (sd w) with
    | Some _ => (Ret tt, w, [FsStat true])
    | None => (Raise OSError, w, [FsStat false])
    end.

(** [open(log_path, mode)]: ['w'] creates or truncates, ['a'] creates
    or keeps. *)
Definition open (m : Mode) : M unit :=
  fun w =>
    if writable (sd w)
    then
      let content :=
        match m, log_file (sd w) with
        | ModeA, Some c => c
        | _, _ => EmptyString
        end in
      (Ret tt, with_sd (set_log_file (Some content) (sd w)) w, [FsOpen m true])
    else (Raise OSError, w, [FsOpen m false]).

(** [f.write(s)] on the open log file. *)
Definition f_write (s : string) : M unit :=
  modify (fun w =>
    let content := match log_file (sd w) with Some c => c | None => EmptyString end in
    with_sd (set_log_file (Some (content ++ s)%string) (sd w)) w).

(** [log_data_to_sd].  [timestamp] is the text that [f"{timestamp}"]
    yields for the [time.monotonic()] read inside the append block. *)
Definition log_data_to_sd (timestamp : string) : M unit :=
  try_except
    (let* proceed :=
       try_except (listdir ;; ret true) is_OSError (fun _ =>
         print "SD card directory issue - remounting" ;;
         try_except (mount ;; ret true) is_Exception (fun e =>
           print_exn "Remount failed: " e ;;
           ret false)) in
     if proceed then
       let* file_exists :=
         try_except (stat ;; ret true) is_OSError (fun _ => ret false) in
       (if negb file_exists then
          open ModeW ;;
          f_write "timestamp" ;;
          for_each (range 0 23) (fun i => f_write ("," ++ "adc" ++ str i)%string) ;;
          f_write newline
        else ret tt) ;;
       open ModeA ;;
       f_write timestamp ;;
       (let* data := get adc_data in
        for_each data (fun value => f_write ("," ++ str value)%string)) ;;
       f_write newline
     else ret tt)
    is_Exception
    (fun e => print_exn "Error logging to SD card: " e).

(** ** CAN link driver *)

Definition init_can_controller : M unit :=
  set_pin CAN_CS false ;;
  lock SPI1 ;;
  try_finally
    (spi_configure SPI1 10000000 ;;
     let* b := bytes [0xC0] in spi_write SPI1 b)
    (unlock SPI1) ;;
  set_pin CAN_CS true ;;
  sleep 10000 ;;
  lock SPI1 ;;
  try_finally
    (spi_configure SPI1 10000000 ;;
     set_pin CAN_CS false ;;
     (let* b := bytes [0x02; 0x0F; 0x80] in spi_write SPI1 b) ;;
     set_pin CAN_CS true ;;
     sleep 1000 ;;
     set_pin CAN_CS false ;;
     (let* b := bytes [0x02; 0x2A; 0x04] in spi_write SPI1 b) ;;
     set_pin CAN_CS true ;;
     set_pin CAN_CS false ;;
     (let* b := bytes [0x02; 0x28; 0x00] in spi_write SPI1 b) ;;
     set_pin CAN_CS true ;;
     set_pin CAN_CS false ;;
     (let* b := bytes [0x02; 0x0F; 0x00] in spi_write SPI1 b) ;;
     set_pin CAN_CS true)
    (unlock SPI1).

(** [len(data)] *)
Definition len {A} (l : list A) : Z := Z.of_nat (length l).

Definition send_can_message (id : Z) (data : list Z) : M unit :=
  lock SPI1 ;;
  try_finally
    (set_pin CAN_CS false ;;
     (let* b := bytes [0x40; 0x08] in spi_write SPI1 b) ;;
     set_pin CAN_CS true ;;
     set_pin CAN_CS false ;;
     (let* buffer := bytes [Z.shiftr id 3; Z.shiftl (Z.land id 0x07) 5; 0; 0; len data] in
      let* buffer := extend buffer data in
      spi_write SPI1 buffer) ;;
     set_pin CAN_CS true ;;
     set_pin CAN_CS false ;;
     (let* b := bytes [0x81] in spi_write SPI1 b) ;;
     set_pin CAN_CS true)
    (unlock SPI1).

(** [for x in xs: acc = body acc x], for a loop that grows a local. *)
Fixpoint fold_each {A S} (xs : list A) (acc : S) (body : S -> A -> M S) : M S :=
  match xs with
  | [] => ret acc
  | x :: xs' => let* acc' := body acc x in fold_each xs' acc' body
  end.

(** [l[a:b]] for [0 <= a <= b]; the end is clamped to the list. *)
Definition slice {A} (l : list A) (a b : Z) : list A :=
  firstn (Z.to_nat (b - a)) (skipn (Z.to_nat a) l).

Definition send_adc_data_via_can : M unit :=
  let* data := get adc_data in
  let* all_bytes :=
    fold_each data [] (fun all_bytes value =>
      let* packed := pack_H value in
      extend all_bytes packed) in
  let chunk_size := 8 in
  for_each (range_step 0 (len all_bytes) chunk_size) (fun i =>
    let chunk := slice all_bytes i (i + Z.min chunk_size (len all_bytes - i)) in
    send_can_message (0x100 + i / chunk_size) chunk ;;
    sleep 5000).

(** ** Construction *)

(** [DataAcquisitionSystem.__init__]: buses created unlocked, the four
    chip selects deselected, the SD card initialised and mounted if it can
    be (any failure on the way is printed and construction goes on), the CAN
    controller brought up, and the reading vector set to 23 zeros. (The
    PWM clock output and the two time stamps play no part below.) *)
Definition __init__ : M unit :=
  modify (with_lock SPI0 false) ;;
  modify (with_lock SPI1 false) ;;
  set_pin SD_CS true ;;
  set_pin ADC_CS true ;;
  set_pin CAN_CS true ;;
  set_pin MUX_CS true ;;
  try_except
    (sdcard_init ;; mount ;; print "SD card mounted successfully")
    is_Exception
    (fun e => print_exn "Error mounting SD card: " e) ;;
  init_can_controller ;;
  modify (with_adc_data (repeat 0 23)).

(** ** Reading a run *)

Definition outcome {A} (r : Outcome A * World * list Event) : Outcome A := fst (fst r).
Definition final {A} (r : Outcome A * World * list Event) : World := snd (fst r).
Definition events {A} (r : Outcome A * World * list Event) : list Event := snd r.

#[global] Instance Pin_eq_dec : EqDecision Pin.
Proof. solve_decision. Defined.

(** Pin levels after one more write. *)
Definition drive (lv : Pin -> bool) (p : Pin) (v : bool) : Pin -> bool :=
  fun q => if decide (p = q) then v else lv q.

(** The levels on the four multiplexer select lines, first line first. *)
Definition mux_select (lv : Pin -> bool) : list bool :=
  [lv MUX_S0; lv MUX_S1; lv MUX_S2; lv MUX_S3].

(** The ADC exchanges of a trace in order: the command byte sent, the
    select-line levels at that moment, and the two bytes read back.
    [lv] gives the pin levels before the trace starts. *)
Fixpoint adc_exchanges (lv : Pin -> bool) (tr : list Event)
  : list (Z * list bool * list Z) :=
  match tr with
  | [] => []
  | SetPin p v :: tr' => adc_exchanges (drive lv p v) tr'
  | SpiExchange SPI0 out inp :: tr' =>
      (nth 0 out 0, mux_select lv, inp) :: adc_exchanges lv tr'
  | _ :: tr' => adc_exchanges lv tr'
  end.

(** The chip-select bursts the CAN controller sees: the bytes written on
    SPI1 between one falling edge of [CAN_CS] and the next rising edge,
    burst by burst. [cur] is the burst in progress, if the line is low;
    a burst still open when the trace ends is listed too, and bytes
    written while the line is high reach nobody. *)
Fixpoint bursts_from (cur : option (list Z)) (tr : list Event) : list (list Z) :=
  match tr with
  | [] => match cur with Some bs => [bs] | None => [] end
  | SetPin CAN_CS false :: tr' => bursts_from (Some (default [] cur)) tr'
  | SetPin CAN_CS true :: tr' =>
      match cur with
      | Some bs => bs :: bursts_from None tr'
      | None => bursts_from None tr'
      end
  | SpiWrite SPI1 out :: tr' =>
      match cur with
      | Some bs => bursts_from (Some (bs ++ out)) tr'
      | None => bursts_from None tr'
      end
  | _ :: tr' => bursts_from cur tr'
  end.

Definition can_bursts (tr : list Event) : list (list Z) := bursts_from None tr.

(** Number of calls to [storage.mount] in a trace. *)
Fixpoint mount_attempts (tr : list Event) : nat :=
  match tr with
  | [] => 0
  | FsMount _ :: tr' => S (mount_attempts tr')
  | _ :: tr' => mount_attempts tr'
  end.

(** What one burst does to the MCP2515 register file: the WRITE
    instruction [0x02] takes a start address and stores the value bytes
    that follow at consecutive addresses; any other first byte is not a
    register write. *)
Fixpoint sequential (addr : Z) (values : list Z) : list (Z * Z) :=
  match values with
  | [] => []
  | v :: vs => (addr, v) :: sequential (addr + 1) vs
  end.

Definition register_writes (burst : list Z) : list (Z * Z) :=
  match burst with
  | 0x02 :: addr :: values => sequential addr values
  | _ => []
  end.

(** The world [__init__] starts from on healthy hardware: [wire] is what
    the ADC will answer, the card mounts and has no log file yet. *)
Definition blank (wire : nat -> Z * Z) : World :=
  mkWorld [] false false wire 0 (mkStorage false Mounts true None).


Definition booted (wire : nat -> Z * Z) : World := final (__init__ (blank wire)).

(** An ADC answering its [n]-th exchange with the reading [100 * (n+1)]. *)
Definition ramp (n : nat) : Z * Z :=
  let v := 100 * (Z.of_nat n + 1) in (Z.shiftr v 8, Z.land v 255).

(** The text the append block of [log_data_to_sd] writes for the
    readings: a comma and the number, for each of them in order. *)
Definition readings_text (data : list Z) : string :=
  fold_right (fun value rest => "," ++ str value ++ rest)%string EmptyString data.

(** The text of one log record: the timestamp, the readings, the
    newline. *)
Definition csv_row (timestamp : string) (data : list Z) : string :=
  (timestamp ++ readings_text data ++ newline)%string.

(** The header line written when the log file is created. *)
Definition csv_header : string :=
  ("timestamp,adc0,adc1,adc2,adc3,adc4,adc5,adc6,adc7,adc8,adc9,adc10,adc11,adc12,adc13,adc14,adc15,adc16,adc17,adc18,adc19,adc20,adc21,adc22"
   ++ newline)%string.

(** The world with [content] in the log file. *)
Definition put_log (content : string) (w : World) : World :=
  with_sd (set_log_file (Some content) (sd w)) w.

(** The log file after one more record has gone through: a new file
    starts with the header, an existing one keeps its content. *)
Definition logged (timestamp : string) (w : World) : string :=
  (match log_file (sd w) with
   | None => csv_header
   | Some c => c
   end ++ csv_row timestamp (adc_data w))%string.

(** The events of one successful [send_can_message]. *)
Definition frame_events (id : Z) (data : list Z) : list Event :=
  [SetPin CAN_CS false; SpiWrite SPI1 [0x40; 0x08]; SetPin CAN_CS true;
   SetPin CAN_CS false;
   SpiWrite SPI1 ([Z.shiftr id 3; Z.shiftl (Z.land id 0x07) 5; 0; 0; len data] ++ data);
   SetPin CAN_CS true;
   SetPin CAN_CS false; SpiWrite SPI1 [0x81]; SetPin CAN_CS true].

(** The identifiers of the six frames of one transmission. *)
Definition frame_ids : list Z := [0x100; 0x101; 0x102; 0x103; 0x104; 0x105].

(** [n] sampling cycles in a row. *)
Fixpoint cycles (n : nat) : M unit :=
  match n with
  | O => ret tt
  | S n' => sample_all_channels ;; cycles n'
  end.

(** The two bytes the ADC answers to exchange number [k] of the call that
    starts in [w], and the reading they decode to. *)
Definition reply (w : World) (k : nat) : list Z :=
  [fst (adc_wire w (k + adc_seq w)%nat); snd (adc_wire w (k + adc_seq w)%nat)].

Definition reading (w : World) (k : nat) : Z := adc_value (reply w k).

(** The events of one [read_adc_channel]. *)
Definition adc_events (channel : Z) (inp : list Z) : list Event :=
  [SetPin ADC_CS false; Sleep 1; Configure SPI0 2000000;
   SpiExchange SPI0 [adc_command channel; 0] inp; SetPin ADC_CS true].

(** A method keeps a property of the state, however it ends. *)
Definition preserves {A} (P : World -> Prop) (m : M A) : Prop :=
  forall w, P w -> P (final (m w)).

(** Pin levels at the end of a trace that starts with the levels [lv]. *)
Fixpoint levels_after (lv : Pin -> bool) (tr : list Event) : Pin -> bool :=
  match tr with
  | [] => lv
  | SetPin p v :: tr' => levels_after (drive lv p v) tr'
  | _ :: tr' => levels_after lv tr'
  end.

(** Every byte written on SPI1, whatever the chip select does. *)
Fixpoint spi1_bytes (tr : list Event) : list Z :=
  match tr with
  | [] => []
  | SpiWrite SPI1 out :: tr' => out ++ spi1_bytes tr'
  | _ :: tr' => spi1_bytes tr'
  end.

(** The levels of the two chip selects that share SPI0, [ADC_CS] and
    [SD_CS], at each exchange on that bus. *)
Fixpoint exchange_selects (lv : Pin -> bool) (tr : list Event) : list (bool * bool) :=
  match tr with
  | [] => []
  | SetPin p v :: tr' => exchange_selects (drive lv p v) tr'
  | SpiExchange SPI0 _ _ :: tr' => (lv ADC_CS, lv SD_CS) :: exchange_selects lv tr'
  | _ :: tr' => exchange_selects lv tr'
  end.

(** How a receiver reads a payload packed with [">H"]: each pair of
    bytes is one value, high byte first. *)
Fixpoint unpack_H (bs : list Z) : list Z :=
  match bs with
  | hi :: lo :: rest => Z.lor (Z.shiftl hi 8) lo :: unpack_H rest
  | _ => []
  end.

(** The three bursts of one frame. *)
Definition frame_bursts (f : Z * list Z) : list (list Z) :=
  [[0x40; 0x08];
   [Z.shiftr (fst f) 3; Z.shiftl (Z.land (fst f) 0x07) 5; 0; 0; len (snd f)] ++ snd f;
   [0x81]].

(** The data bytes of the frames in a list of bursts: of every three
    bursts, the second one without its five header bytes. *)
Fixpoint frame_payloads (bs : list (list Z)) : list Z :=
  match bs with
  | _ :: b :: _ :: rest => skipn 5 b ++ frame_payloads rest
  | _ => []
  end.

(** The frames the chunk loop of [send_adc_data_via_can] makes of the
    packed bytes: chunk [k] is bytes [8k .. 8k+7] (fewer at the end) and
    goes out under identifier [0x100 + k]. *)
Definition chunk_frames (all_bytes : list Z) : list (Z * list Z) :=
  map (fun k => (0x100 + Z.of_nat k, firstn 8 (skipn (8 * k) all_bytes)))
      (seq 0 ((length all_bytes + 7) / 8)).

(** [">H"] packing of a whole vector. *)
Definition packed (data : list Z) : list Z :=
  flat_map (fun v => [Z.shiftr v 8; Z.land v 255]) data.

(** The state the main loop works in: both buses free, a vector of 23
    readings that fit 12 bits, and an ADC that answers with bytes. *)
Definition healthy (w : World) : Prop :=
  spi0_locked w = false
  /\ spi1_locked w = false
  /\ length (adc_data w) = 23%nat
  /\ Forall (fun v => 0 <= v <= 4095) (adc_data w)
  /\ (forall k, 0 <= snd (adc_wire w k) <= 255).

(** * Properties *)

(** ** Bytes and bit fields *)

Lemma is_byte_iff z : is_byte z = true <-> 0 <= z <= 255.
Proof. unfold is_byte. rewrite andb_true_iff, Z.leb_le, Z.leb_le. tauto. Qed.

Lemma land_low_bound z n : 0 <= n -> 0 <= Z.land z (Z.ones n) < 2 ^ n.
Proof.
  intros Hn. rewrite Z.land_ones by assumption.
  apply Z.mod_pos_bound, Z.pow_pos_nonneg; lia.
Qed.

Lemma land_7_bound z : 0 <= Z.land z 7 <= 7.
Proof. pose proof (land_low_bound z 3 ltac:(lia)) as H. change (Z.ones 3) with 7 in H. lia. Qed.

Lemma land_15_bound z : 0 <= Z.land z 15 <= 15.
Proof. pose proof (land_low_bound z 4 ltac:(lia)) as H. change (Z.ones 4) with 15 in H. lia. Qed.

Lemma land_255_bound z : 0 <= Z.land z 255 <= 255.
Proof. pose proof (land_low_bound z 8 ltac:(lia)) as H. change (Z.ones 8) with 255 in H. lia. Qed.

(** An OR of two numbers below [2^n] stays below [2^n]. *)
Lemma lor_below a b n :
  0 <= a < 2 ^ n -> 0 <= b < 2 ^ n -> 0 <= Z.lor a b < 2 ^ n.
Proof.
  intros Ha Hb.
  assert (Hn : 0 <= n).
  { destruct (Z.le_gt_cases 0 n) as [|Hneg]; [assumption|].
    rewrite Z.pow_neg_r in Ha by assumption. lia. }
  split; [apply Z.lor_nonneg; lia|].
  destruct (Z.eq_dec (Z.lor a b) 0) as [->|Hnz]; [lia|].
  assert (Hpos : 0 < n).
  { destruct (Z.eq_dec n 0) as [->|]; [|lia].
    change (2 ^ 0) with 1 in Ha, Hb.
    replace a with 0 in Hnz by lia. replace b with 0 in Hnz by lia.
    contradiction Hnz; reflexivity. }
  apply Z.log2_lt_pow2; [pose proof (proj2 (Z.lor_nonneg a b)); lia|].
  rewrite Z.log2_lor by lia.
  apply Z.max_lub_lt.
  - destruct (Z.eq_dec a 0) as [->|]; [simpl; lia|apply Z.log2_lt_pow2; lia].
  - destruct (Z.eq_dec b 0) as [->|]; [simpl; lia|apply Z.log2_lt_pow2; lia].
Qed.

Lemma adc_command_bound channel : 128 <= adc_command channel <= 255.
Proof.
  unfold adc_command. pose proof (land_7_bound channel) as H7.
  rewrite Z.shiftl_mul_pow2 by lia. change (2 ^ 4) with 16.
  assert (Hlor : 0 <= Z.lor 128 (Z.land channel 7 * 16) < 2 ^ 8)
    by (apply lor_below; change (2 ^ 8) with 256; lia).
  change (2 ^ 8) with 256 in Hlor. split; [|lia].
  destruct (Z.le_gt_cases 128 (Z.lor 128 (Z.land channel 7 * 16))) as [|Hlt]; [assumption|].
  exfalso.
  assert (Hbit : Z.testbit (Z.lor 128 (Z.land channel 7 * 16)) 7 = true)
    by (rewrite Z.lor_spec; reflexivity).
  assert (Hsmall : Z.lor 128 (Z.land channel 7 * 16) = 0 \/
                   Z.log2 (Z.lor 128 (Z.land channel 7 * 16)) < 7).
  { destruct (Z.eq_dec (Z.lor 128 (Z.land channel 7 * 16)) 0); [left; assumption|right].
    apply Z.log2_lt_pow2; change (2 ^ 7) with 128; lia. }
  destruct Hsmall as [H0|Hlog].
  - rewrite H0 in Hbit. discriminate.
  - rewrite Z.bits_above_log2 in Hbit by lia. discriminate.
Qed.

(** The reading assembled from two bytes fits in 12 bits. *)
Lemma adc_value_bound b0 b1 :
  0 <= b1 <= 255 -> 0 <= adc_value [b0; b1] <= 4095.
Proof.
  intros Hb1. unfold adc_value. cbn [nth].
  pose proof (land_15_bound b0) as H15.
  rewrite Z.shiftl_mul_pow2 by lia. change (2 ^ 8) with 256.
  assert (H : 0 <= Z.lor (Z.land b0 15 * 256) b1 < 2 ^ 12)
    by (apply lor_below; change (2 ^ 12) with 4096; lia).
  change (2 ^ 12) with 4096 in H. lia.
Qed.

(** ** Running the monad *)

Lemma bind_Ret {A B} (m : M A) (k : A -> M B) w a w1 ev1 :
  m w = (Ret a, w1, ev1) ->
  bind m k w = (outcome (k a w1), final (k a w1), ev1 ++ events (k a w1)).
Proof.
  intros H. unfold bind. rewrite H.
  destruct (k a w1) as [[o w2] ev2]. reflexivity.
Qed.

Lemma bind_Raise {A B} (m : M A) (k : A -> M B) w e w1 ev1 :
  m w = (Raise e, w1, ev1) -> bind m k w = (Raise e, w1, ev1).
Proof. intros H. unfold bind. rewrite H. reflexivity. Qed.

Lemma run_eta {A} (r : Outcome A * World * list Event) :
  r = (outcome r, final r, events r).
Proof. destruct r as [[o w] ev]. reflexivity. Qed.

Lemma world_eta w :
  w = mkWorld (adc_data w) (spi0_locked w) (spi1_locked w) (adc_wire w) (adc_seq w) (sd w).
Proof. destruct w. reflexivity. Qed.

(** ** One ADC exchange *)

(** What [read_adc_channel] does when the bus is free: five events, the
    exchange counter moves by one, and the reading is returned. *)
Lemma read_adc_channel_run channel w :
  spi0_locked w = false ->
  read_adc_channel channel w =
    (Ret (reading w 0), with_adc_seq (S (adc_seq w)) w,
     adc_events channel (reply w 0)).
Proof.
  intros Hfree.
  assert (Hcmd : is_byte (adc_command channel) = true)
    by (apply is_byte_iff; pose proof (adc_command_bound channel); lia).
  destruct w as [data l0 l1 wire n s]. cbn in Hfree. subst l0.
  unfold read_adc_channel, bind, try_finally, lock, unlock, bytes, modify,
    set_pin, sleep, spi_configure, spi0_write_readinto, emit, ret, locked.
  cbn [forallb]. rewrite Hcmd. reflexivity.
Qed.

(** C7. For raw response bytes b0 and b1, each in 0..255, read_adc_channel
    returns ((b0 & 0x0F) << 8) | b1, a value in 0..4095 (on a free bus,
    whatever the channel asked for). *)
Theorem read_adc_channel_decodes channel w b0 b1 :
  spi0_locked w = false ->
  adc_wire w (adc_seq w) = (b0, b1) ->
  0 <= b0 <= 255 ->
  0 <= b1 <= 255 ->
  outcome (read_adc_channel channel w)
    = Ret (Z.lor (Z.shiftl (Z.land b0 0x0F) 8) b1)
  /\ 0 <= Z.lor (Z.shiftl (Z.land b0 0x0F) 8) b1 <= 4095.
Proof.
  intros Hfree Hwire _ Hb1.
  rewrite read_adc_channel_run by assumption.
  unfold reading, reply. cbn [Nat.add]. rewrite Hwire.
  split; [reflexivity|].
  exact (adc_value_bound b0 b1 Hb1).
Qed.

Lemma read_adc_channel_decodes_witness :
  outcome (read_adc_channel 3 (booted ramp)) = Ret (Z.lor (Z.shiftl (Z.land 0 0x0F) 8) 100)
  /\ 0 <= Z.lor (Z.shiftl (Z.land 0 0x0F) 8) 100 <= 4095.
Proof.
  apply (read_adc_channel_decodes 3 (booted ramp) 0 100);
    [reflexivity | reflexivity | lia | lia].
Defined.

(** ** Invariants of loops *)

Lemma final_bind {A B} (m : M A) (k : A -> M B) w :
  final (bind m k w) =
    match outcome (m w) with
    | Ret a => final (k a (final (m w)))
    | _ => final (m w)
    end.
Proof.
  unfold bind. destruct (m w) as [[[a|e|] w1] ev1]; cbn; try reflexivity.
  destruct (k a w1) as [[o w2] ev2]. reflexivity.
Qed.

Section Preservation.
Variable P : World -> Prop.

Lemma preserves_bind {A B} (m : M A) (k : A -> M B) :
  preserves P m -> (forall a, preserves P (k a)) -> preserves P (bind m k).
Proof.
  intros Hm Hk w Hw. rewrite final_bind.
  destruct (outcome (m w)); [apply Hk|..]; apply Hm, Hw.
Qed.

Lemma preserves_ret {A} (a : A) : preserves P (ret a).
Proof. intros w Hw. exact Hw. Qed.

Lemma preserves_raise {A} e : preserves P (@raise A e).
Proof. intros w Hw. exact Hw. Qed.

Lemma preserves_emit e : preserves P (emit e).
Proof. intros w Hw. exact Hw. Qed.

Lemma preserves_get {A} (f : World -> A) : preserves P (get f).
Proof. intros w Hw. exact Hw. Qed.

Lemma preserves_for_each {A} (xs : list A) (body : A -> M unit) :
  Forall (fun x => preserves P (body x)) xs -> preserves P (for_each xs body).
Proof.
  induction 1 as [|x xs Hx _ IH]; cbn [for_each].
  - apply preserves_ret.
  - apply preserves_bind; [exact Hx | intros _; exact IH].
Qed.
End Preservation.

Lemma range_spec start stop x : In x (range start stop) <-> start <= x < stop.
Proof.
  unfold range. rewrite in_map_iff. split.
  - intros (k & <- & Hk). apply in_seq in Hk. lia.
  - intros Hx. exists (Z.to_nat (x - start)). split; [lia|].
    apply in_seq. lia.
Qed.

(** ** The sampling cycle *)

(** An exchange with the ADC never touches the reading vector. *)
Lemma read_adc_channel_keeps_data channel w :
  adc_data (final (read_adc_channel channel w)) = adc_data w.
Proof.
  assert (Hcmd : is_byte (adc_command channel) = true)
    by (apply is_byte_iff; pose proof (adc_command_bound channel); lia).
  destruct w as [data l0 l1 wire n s].
  unfold read_adc_channel, bind, try_finally, lock, unlock, bytes, modify,
    set_pin, sleep, spi_configure, spi0_write_readinto, emit, ret, locked.
  cbn [forallb]. rewrite Hcmd. destruct l0; reflexivity.
Qed.

(** Storing a reading at a positive index leaves entry 0 alone, also when
    the store raises. *)
Lemma setitem_keeps_entry_0 (v0 : option Z) data i v w :
  1 <= i ->
  data !! 0%nat = v0 ->
  match outcome (setitem data i v w) with
  | Ret data' => data' !! 0%nat = v0
  | _ => True
  end.
Proof.
  intros Hi H0. unfold setitem.
  destruct ((0 <=? i) && (i <? Z.of_nat (length data))); cbn.
  - rewrite list_lookup_insert_ne by lia. exact H0.
  - destruct ((- Z.of_nat (length data) <=? i) && (i <? 0)) eqn:Hneg; cbn; [|exact I].
    apply andb_true_iff in Hneg. lia.
Qed.

Lemma store_reading_keeps_entry_0 (v0 : option Z) (rd : M Z) i :
  1 <= i ->
  (forall w, adc_data (final (rd w)) = adc_data w) ->
  preserves (fun w => adc_data w !! 0%nat = v0)
    (let* v := rd in
     let* data := get adc_data in
     let* data' := setitem data i v in
     modify (with_adc_data data')).
Proof.
  intros Hi Hrd w Hw. rewrite final_bind.
  destruct (outcome (rd w)) as [v| |]; try (rewrite Hrd; exact Hw).
  pose proof (setitem_keeps_entry_0 v0 (adc_data (final (rd w))) i v (final (rd w)) Hi) as Hset.
  rewrite Hrd in Hset at 1. specialize (Hset Hw).
  unfold bind, get, modify, setitem in *.
  destruct ((0 <=? i) && (i <? Z.of_nat (length (adc_data (final (rd w))))));
    [exact Hset|].
  destruct ((- Z.of_nat (length (adc_data (final (rd w)))) <=? i) && (i <? 0));
    [exact Hset|].
  cbn. rewrite Hrd. exact Hw.
Qed.

Lemma sample_all_channels_frame (v0 : option Z) :
  preserves (fun w => adc_data w !! 0%nat = v0) sample_all_channels.
Proof.
  unfold sample_all_channels.
  apply preserves_bind; [|intros _]; apply preserves_for_each, Forall_forall;
    intros i Hi; apply range_spec in Hi.
  - apply store_reading_keeps_entry_0; [lia|apply read_adc_channel_keeps_data].
  - apply preserves_bind; [intros w Hw; exact Hw|intros _].
    apply preserves_bind; [apply preserves_emit|intros _].
    apply store_reading_keeps_entry_0; [lia|apply read_adc_channel_keeps_data].
Qed.

Lemma list_of_length_23 {A} (l : list A) :
  length l = 23%nat ->
  exists a0 a1 a2 a3 a4 a5 a6 a7 a8 a9 a10 a11 a12 a13 a14 a15 a16 a17 a18 a19
         a20 a21 a22,
    l = [a0; a1; a2; a3; a4; a5; a6; a7; a8; a9; a10; a11; a12; a13; a14; a15;
         a16; a17; a18; a19; a20; a21; a22].
Proof.
  intros H. do 23 (destruct l as [|? l]; [discriminate H|]).
  destruct l; [|discriminate H]. repeat eexists.
Qed.

(** One whole cycle on a free bus and a 23-entry vector: 7 direct
    exchanges with inputs 1..7, then 16 exchanges with input 0 behind the
    multiplexer. Entry 0 keeps its old value, entries 1..6 take exchanges
    0..5, and entries 7..22 take exchanges 7..22; the reading of exchange 6
    (input 7) is stored in entry 7 and overwritten there. *)
Lemma sample_all_channels_run w :
  spi0_locked w = false ->
  length (adc_data w) = 23%nat ->
  sample_all_channels w =
    (Ret tt,
     with_adc_data
       (firstn 1 (adc_data w) ++ map (reading w) (seq 0 6) ++ map (reading w) (seq 7 16))
       (with_adc_seq (23 + adc_seq w) w),
     flat_map (fun k => adc_events (Z.of_nat k + 1) (reply w k)) (seq 0 7) ++
     flat_map (fun m => events (set_mux_channel (Z.of_nat m) w) ++ [Sleep 50] ++
                        adc_events 0 (reply w (7 + m))) (seq 0 16)).
Proof.
  intros Hfree Hlen. destruct w as [data l0 l1 wire n s]. cbn in Hfree, Hlen. subst l0.
  destruct (list_of_length_23 data Hlen)
    as (a0&a1&a2&a3&a4&a5&a6&a7&a8&a9&a10&a11&a12&a13&a14&a15&a16&a17&a18&a19&a20&a21&a22&->).
  reflexivity.
Qed.

Lemma cycles_run n : forall w,
  spi0_locked w = false ->
  length (adc_data w) = 23%nat ->
  outcome (cycles n w) = Ret tt
  /\ spi0_locked (final (cycles n w)) = false
  /\ length (adc_data (final (cycles n w))) = 23%nat.
Proof.
  induction n as [|n IH]; intros w Hfree Hlen; cbn [cycles].
  - repeat split; assumption.
  - rewrite (bind_Ret _ _ _ _ _ _ (sample_all_channels_run w Hfree Hlen)).
    cbn [outcome final fst snd]. apply IH; [exact Hfree|].
    cbn. destruct (adc_data w); [discriminate Hlen|reflexivity].
Qed.

Lemma cycles_frame (v0 : option Z) n :
  preserves (fun w => adc_data w !! 0%nat = v0) (cycles n).
Proof.
  induction n as [|n IH]; cbn [cycles].
  - apply preserves_ret.
  - apply preserves_bind; [apply sample_all_channels_frame|intros _; exact IH].
Qed.

(** C10. sample_all_channels never writes entry 0 of the reading vector:
    the entry is the same after the call as before, in every state and
    however the call ends; from construction on it is the initial 0, after
    any number of (normally returning) sampling cycles. *)
Theorem sample_all_channels_never_writes_entry_0 :
  (forall w, adc_data (final (sample_all_channels w)) !! 0%nat = adc_data w !! 0%nat)
  /\ (forall wire n,
        outcome (cycles n (booted wire)) = Ret tt
        /\ adc_data (final (cycles n (booted wire))) !! 0%nat = Some 0).
Proof.
  split.
  - intros w. exact (sample_all_channels_frame (adc_data w !! 0%nat) w eq_refl).
  - intros wire n. split.
    + apply cycles_run; reflexivity.
    + apply (cycles_frame (Some 0) n (booted wire)). reflexivity.
Qed.

(** C1 (as the code has it). On a free bus and a 23-entry vector, the
    k-th ADC exchange of one sample_all_channels call, k = 0..6, carries
    the command byte 0x80 | ((k+1) << 4), which addresses ADC input k+1,
    with the select lines as they were; the k-th exchange, k = 7..22,
    carries command byte 0x80 (input 0) and is made with the four select
    lines already set to the bits of k-7, bit 0 on the first line. *)
Theorem sample_all_channels_commands w lv :
  spi0_locked w = false ->
  length (adc_data w) = 23%nat ->
  let xs := adc_exchanges lv (events (sample_all_channels w)) in
  length xs = 23%nat
  /\ (forall k, (k < 7)%nat ->
        xs !! k = Some (Z.lor 0x80 (Z.shiftl (Z.of_nat k + 1) 4), mux_select lv, reply w k))
  /\ (forall k, (7 <= k < 23)%nat ->
        xs !! k = Some (0x80,
                        [Z.testbit (Z.of_nat k - 7) 0; Z.testbit (Z.of_nat k - 7) 1;
                         Z.testbit (Z.of_nat k - 7) 2; Z.testbit (Z.of_nat k - 7) 3],
                        reply w k)).
Proof.
  intros Hfree Hlen xs. subst xs.
  rewrite sample_all_channels_run by assumption. cbn [events snd].
  split; [reflexivity|]. split; intros k Hk.
  - do 7 (destruct k as [|k]; [reflexivity|]). lia.
  - do 7 (destruct k as [|k]; [lia|]).
    do 16 (destruct k as [|k]; [reflexivity|]). lia.
Qed.

Lemma sample_all_channels_commands_witness :
  let xs := adc_exchanges (fun _ => false) (events (sample_all_channels (booted ramp))) in
  length xs = 23%nat
  /\ (forall k, (k < 7)%nat ->
        xs !! k = Some (Z.lor 0x80 (Z.shiftl (Z.of_nat k + 1) 4),
                        mux_select (fun _ => false), reply (booted ramp) k))
  /\ (forall k, (7 <= k < 23)%nat ->
        xs !! k = Some (0x80,
                        [Z.testbit (Z.of_nat k - 7) 0; Z.testbit (Z.of_nat k - 7) 1;
                         Z.testbit (Z.of_nat k - 7) 2; Z.testbit (Z.of_nat k - 7) 3],
                        reply (booted ramp) k)).
Proof.
  apply (sample_all_channels_commands (booted ramp) (fun _ => false));
    reflexivity.
Defined.

(** C1 as stated fails at channel 0: the seven direct exchanges carry the
    command bytes 0x90..0xF0, so the first one is not 0x80 | (0 << 4), and
    none of them is. *)
Lemma sample_all_channels_commands_counterexample :
  let cmds := map (fun x => fst (fst x))
                  (firstn 7 (adc_exchanges (fun _ => false)
                               (events (sample_all_channels (booted ramp))))) in
  cmds = [0x90; 0xA0; 0xB0; 0xC0; 0xD0; 0xE0; 0xF0]
  /\ nth 0 cmds 0 <> Z.lor 0x80 (Z.shiftl 0 4)
  /\ ~ In (Z.lor 0x80 (Z.shiftl 0 4)) cmds.
Proof.
  vm_compute. split; [reflexivity|]. split; [discriminate|].
  intros H. repeat (destruct H as [H|H]; [discriminate H|]). exact H.
Qed.

(** C2 at a concrete cycle. The ADC answers its exchanges with 100, 200,
    ..., 2300 in order (inputs 1..7, then sub-channels 0..15); after the
    call entry 0 is still 0, entries 1..6 hold inputs 1..6, entry 7 holds
    sub-channel 0, and the 700 read from input 7 is nowhere in the vector. *)
Theorem sample_all_channels_drops_input_7 :
  let r := sample_all_channels (booted ramp) in
  outcome r = Ret tt
  /\ map (fun x => adc_value (snd x)) (adc_exchanges (fun _ => false) (events r))
     = [100; 200; 300; 400; 500; 600; 700; 800; 900; 1000; 1100; 1200; 1300; 1400;
        1500; 1600; 1700; 1800; 1900; 2000; 2100; 2200; 2300]
  /\ adc_data (final r)
     = [0; 100; 200; 300; 400; 500; 600; 800; 900; 1000; 1100; 1200; 1300; 1400;
        1500; 1600; 1700; 1800; 1900; 2000; 2100; 2200; 2300]
  /\ ~ In 700 (adc_data (final r)).
Proof.
  vm_compute. repeat split.
  intros H. repeat (destruct H as [H|H]; [discriminate H|]). exact H.
Qed.

(** ** CAN frames *)

Lemma forallb_is_byte data :
  Forall (fun b => 0 <= b <= 255) data -> forallb is_byte data = true.
Proof.
  intros H. apply forallb_forall. intros b Hb.
  apply is_byte_iff. rewrite Forall_forall in H. apply H, Hb.
Qed.

(** The identifier's high byte fits a byte exactly for 11-bit identifiers. *)
Lemma id_high_is_byte id :
  is_byte (Z.shiftr id 3) = (0 <=? id) && (id <=? 0x7FF).
Proof.
  rewrite Z.shiftr_div_pow2 by lia. change (2 ^ 3) with 8.
  unfold is_byte.
  pose proof (Z.div_mod id 8 ltac:(lia)) as Hdiv.
  pose proof (Z.mod_pos_bound id 8 ltac:(lia)) as Hmod.
  destruct (0 <=? id) eqn:H0, (id <=? 0x7FF) eqn:H1;
    rewrite ?Z.leb_le, ?Z.leb_gt in H0, H1; cbn [andb].
  - apply andb_true_iff. rewrite !Z.leb_le. lia.
  - apply andb_false_iff. right. apply Z.leb_gt. lia.
  - apply andb_false_iff. left. apply Z.leb_gt. lia.
  - apply andb_false_iff. left. apply Z.leb_gt. lia.
Qed.

Lemma id_low_is_byte id : is_byte (Z.shiftl (Z.land id 0x07) 5) = true.
Proof.
  apply is_byte_iff. pose proof (land_7_bound id).
  rewrite Z.shiftl_mul_pow2 by lia. change (2 ^ 5) with 32. lia.
Qed.

Lemma len_is_byte {A} (l : list A) : (length l <= 255)%nat -> is_byte (len l) = true.
Proof. intros H. apply is_byte_iff. unfold len. lia. Qed.

(** [send_can_message] on a free bus with a payload of at most 255 bytes:
    the only thing that can go wrong is an identifier whose high byte does
    not fit, and that is found out after the first burst. *)
Lemma send_can_message_run id data w :
  spi1_locked w = false ->
  forallb is_byte data = true ->
  (length data <= 255)%nat ->
  send_can_message id data w =
    if (0 <=? id) && (id <=? 0x7FF)
    then (Ret tt, w, frame_events id data)
    else (Raise ValueError, w,
          [SetPin CAN_CS false; SpiWrite SPI1 [0x40; 0x08]; SetPin CAN_CS true;
           SetPin CAN_CS false]).
Proof.
  intros Hfree Hdata Hlen.
  destruct w as [adc l0 l1 wire n s]. cbn in Hfree. subst l1.
  unfold send_can_message, bind, try_finally, lock, unlock, bytes, extend,
    modify, set_pin, spi_write, emit, ret, raise, locked, frame_events.
  cbn [forallb]. rewrite Hdata, id_high_is_byte, id_low_is_byte, (len_is_byte data Hlen).
  destruct ((0 <=? id) && (id <=? 0x7FF)); reflexivity.
Qed.

(** C6. For an 11-bit identifier and a payload of bytes, the second
    chip-select burst of send_can_message is exactly
    [id >> 3, (id & 0x07) << 5, 0, 0, len(data)] followed by the payload:
    the high byte is the upper 8 of the 11 identifier bits, the low byte
    the remaining 3 bits moved to its top, then two zero bytes and the
    length. *)
Theorem send_can_message_second_burst id data w :
  spi1_locked w = false ->
  0 <= id <= 0x7FF ->
  Forall (fun b => 0 <= b <= 255) data ->
  (length data <= 255)%nat ->
  outcome (send_can_message id data w) = Ret tt
  /\ can_bursts (events (send_can_message id data w)) !! 1%nat
     = Some ([Z.shiftr id 3; Z.shiftl (Z.land id 0x07) 5; 0; 0; len data] ++ data)
  /\ length (can_bursts (events (send_can_message id data w))) = 3%nat
  /\ Z.shiftr id 3 = id / 8
  /\ Z.shiftl (Z.land id 0x07) 5 = (id mod 8) * 32.
Proof.
  intros Hfree Hid Hdata Hlen.
  rewrite send_can_message_run by (try apply forallb_is_byte; assumption).
  replace ((0 <=? id) && (id <=? 0x7FF)) with true
    by (symmetry; apply andb_true_iff; rewrite !Z.leb_le; lia).
  repeat split.
  - rewrite Z.shiftr_div_pow2 by lia. reflexivity.
  - rewrite Z.shiftl_mul_pow2 by lia. change 0x07 with (Z.ones 3).
    rewrite Z.land_ones by lia. reflexivity.
Qed.

Lemma send_can_message_second_burst_witness :
  outcome (send_can_message 0x105 [8; 52; 8; 152; 8; 252] (booted ramp)) = Ret tt
  /\ can_bursts (events (send_can_message 0x105 [8; 52; 8; 152; 8; 252] (booted ramp))) !! 1%nat
     = Some ([Z.shiftr 0x105 3; Z.shiftl (Z.land 0x105 0x07) 5; 0; 0;
              len [8; 52; 8; 152; 8; 252]] ++ [8; 52; 8; 152; 8; 252])
  /\ length (can_bursts (events (send_can_message 0x105 [8; 52; 8; 152; 8; 252] (booted ramp))))
     = 3%nat
  /\ Z.shiftr 0x105 3 = 0x105 / 8
  /\ Z.shiftl (Z.land 0x105 0x07) 5 = (0x105 mod 8) * 32.
Proof.
  apply (send_can_message_second_burst 0x105 [8; 52; 8; 152; 8; 252] (booted ramp)).
  - reflexivity.
  - lia.
  - repeat constructor; lia.
  - simpl; lia.
Defined.

(** C3 (as the code has it). send_can_message checks neither argument.
    With a payload of any length up to 255 bytes it returns normally and
    writes its three bursts whenever the identifier is within 0..0x7FF;
    with an identifier outside that range it raises ValueError, but only
    after the load-TX-buffer burst has gone out and a second burst has
    been opened. *)
Theorem send_can_message_unchecked id data w :
  spi1_locked w = false ->
  Forall (fun b => 0 <= b <= 255) data ->
  (length data <= 255)%nat ->
  outcome (send_can_message id data w)
    = (if (0 <=? id) && (id <=? 0x7FF) then Ret tt else Raise ValueError)
  /\ can_bursts (events (send_can_message id data w))
    = (if (0 <=? id) && (id <=? 0x7FF)
       then [[0x40; 0x08];
             [Z.shiftr id 3; Z.shiftl (Z.land id 0x07) 5; 0; 0; len data] ++ data;
             [0x81]]
       else [[0x40; 0x08]; []]).
Proof.
  intros Hfree Hdata Hlen.
  rewrite send_can_message_run by (try apply forallb_is_byte; assumption).
  destruct ((0 <=? id) && (id <=? 0x7FF)); split; reflexivity.
Qed.

Lemma send_can_message_unchecked_witness :
  outcome (send_can_message 0x100 [1; 2; 3; 4; 5; 6; 7; 8; 9] (booted ramp)) = Ret tt
  /\ can_bursts (events (send_can_message 0x100 [1; 2; 3; 4; 5; 6; 7; 8; 9] (booted ramp)))
     = [[0x40; 0x08]; [32; 0; 0; 0; 9; 1; 2; 3; 4; 5; 6; 7; 8; 9]; [0x81]].
Proof.
  apply (send_can_message_unchecked 0x100 [1; 2; 3; 4; 5; 6; 7; 8; 9] (booted ramp)).
  - reflexivity.
  - repeat constructor; lia.
  - simpl; lia.
Defined.

(** C3 as stated fails: a 9-byte payload is sent like any other, and the
    error for the 12-bit identifier 0x800 comes after bytes have been
    written to the controller. *)
Lemma send_can_message_rejects_counterexample :
  ~ ((exists e, outcome (send_can_message 0x100 [1; 2; 3; 4; 5; 6; 7; 8; 9] (booted ramp))
                = Raise e)
     /\ can_bursts (events (send_can_message 0x100 [1; 2; 3; 4; 5; 6; 7; 8; 9] (booted ramp)))
        = [])
  /\ ~ ((exists e, outcome (send_can_message 0x800 [] (booted ramp)) = Raise e)
        /\ can_bursts (events (send_can_message 0x800 [] (booted ramp))) = []).
Proof.
  split; intros [_ H]; vm_compute in H; discriminate H.
Qed.

(** ** Bringing up the controller *)

(** What [init_can_controller] does on a free bus, whatever else the state
    holds: a reset burst and four three-byte bursts. *)
Lemma init_can_controller_run w :
  spi1_locked w = false ->
  init_can_controller w =
    (Ret tt, w,
     [SetPin CAN_CS false; Configure SPI1 10000000; SpiWrite SPI1 [0xC0];
      SetPin CAN_CS true; Sleep 10000; Configure SPI1 10000000;
      SetPin CAN_CS false; SpiWrite SPI1 [0x02; 0x0F; 0x80]; SetPin CAN_CS true;
      Sleep 1000;
      SetPin CAN_CS false; SpiWrite SPI1 [0x02; 0x2A; 0x04]; SetPin CAN_CS true;
      SetPin CAN_CS false; SpiWrite SPI1 [0x02; 0x28; 0x00]; SetPin CAN_CS true;
      SetPin CAN_CS false; SpiWrite SPI1 [0x02; 0x0F; 0x00]; SetPin CAN_CS true]).
Proof.
  intros Hfree. destruct w as [adc l0 l1 wire n s]. cbn in Hfree. subst l1.
  reflexivity.
Qed.

Lemma init_can_controller_bursts w :
  spi1_locked w = false ->
  can_bursts (events (init_can_controller w)) =
    [[0xC0]; [0x02; 0x0F; 0x80]; [0x02; 0x2A; 0x04]; [0x02; 0x28; 0x00];
     [0x02; 0x0F; 0x00]].
Proof. intros Hfree. rewrite init_can_controller_run by assumption. reflexivity. Qed.

(** C4 on the code. After the reset opcode init_can_controller sends four
    bursts, each a write of ONE value byte: control register 0x0F to 0x80,
    register 0x2A to 0x04, register 0x28 to 0x00, control register to
    0x00. That is four register writes, not five: the burst commented
    "Write to CNF3, CNF2" carries a single value, so no burst writes two
    registers and address 0x29 is never written. *)
Theorem init_can_controller_register_writes :
  let bs := can_bursts (events (init_can_controller (blank ramp))) in
  outcome (init_can_controller (blank ramp)) = Ret tt
  /\ hd [] bs = [0xC0]
  /\ map register_writes (tl bs)
     = [[(0x0F, 0x80)]; [(0x2A, 0x04)]; [(0x28, 0x00)]; [(0x0F, 0x00)]]
  /\ length (flat_map register_writes (tl bs)) = 4%nat
  /\ ~ In 0x29 (map fst (flat_map register_writes (tl bs))).
Proof.
  vm_compute. repeat split.
  intros H. repeat (destruct H as [H|H]; [discriminate H|]). exact H.
Qed.

(** ** Transmitting the readings *)

Lemma pack_H_run value w :
  0 <= value <= 65535 ->
  pack_H value w = (Ret [Z.shiftr value 8; Z.land value 255], w, []).
Proof.
  intros H. unfold pack_H.
  replace ((0 <=? value) && (value <=? 65535)) with true; [reflexivity|].
  symmetry. apply andb_true_iff. rewrite !Z.leb_le. exact H.
Qed.

(** The two bytes of a 16-bit value, and the value back from them, high
    byte first. *)
Lemma pack_H_bytes value :
  0 <= value <= 65535 ->
  0 <= Z.shiftr value 8 <= 255
  /\ 0 <= Z.land value 255 <= 255
  /\ Z.shiftr value 8 * 256 + Z.land value 255 = value.
Proof.
  intros H. rewrite Z.shiftr_div_pow2 by lia. change (2 ^ 8) with 256.
  replace (Z.land value 255) with (value mod 256)
    by (change 255 with (Z.ones 8); rewrite Z.land_ones by lia; reflexivity).
  pose proof (Z.div_mod value 256 ltac:(lia)).
  pose proof (Z.mod_pos_bound value 256 ltac:(lia)). lia.
Qed.

Lemma payload_is_bytes data :
  Forall (fun v => 0 <= v <= 65535) data ->
  Forall (fun b => 0 <= b <= 255)
         (flat_map (fun v => [Z.shiftr v 8; Z.land v 255]) data).
Proof.
  induction 1 as [|v data Hv _ IH]; cbn [flat_map app]; [constructor|].
  destruct (pack_H_bytes v Hv) as (Hhi & Hlo & _).
  constructor; [exact Hhi|]. constructor; [exact Hlo|exact IH].
Qed.

(** The packing loop of [send_adc_data_via_can]. *)
Lemma pack_loop_run data : forall all_bytes w,
  Forall (fun v => 0 <= v <= 65535) data ->
  fold_each data all_bytes
    (fun all_bytes value => let* packed := pack_H value in extend all_bytes packed) w
  = (Ret (all_bytes ++ flat_map (fun v => [Z.shiftr v 8; Z.land v 255]) data), w, []).
Proof.
  induction data as [|v data IH]; intros all_bytes w Hdata; cbn [fold_each flat_map].
  - unfold ret. rewrite app_nil_r. reflexivity.
  - apply Forall_cons_iff in Hdata as [Hv Hdata].
    destruct (pack_H_bytes v Hv) as (Hhi & Hlo & _).
    assert (Hstep : (let* packed := pack_H v in extend all_bytes packed) w
                    = (Ret (all_bytes ++ [Z.shiftr v 8; Z.land v 255]), w, [])).
    { unfold bind. rewrite pack_H_run by assumption. unfold extend. cbn [forallb].
      rewrite (proj2 (is_byte_iff _) Hhi), (proj2 (is_byte_iff _) Hlo). reflexivity. }
    rewrite (bind_Ret _ _ _ _ _ _ Hstep), IH by assumption.
    cbn. rewrite <- app_assoc. reflexivity.
Qed.

(** A run of frames, each followed by the 5 ms pause. *)
Lemma send_frames_run (frames : list (Z * list Z)) : forall w,
  spi1_locked w = false ->
  Forall (fun f => 0 <= fst f <= 0x7FF
                   /\ Forall (fun b => 0 <= b <= 255) (snd f)
                   /\ (length (snd f) <= 255)%nat) frames ->
  for_each frames (fun f => send_can_message (fst f) (snd f) ;; sleep 5000) w
  = (Ret tt, w, flat_map (fun f => frame_events (fst f) (snd f) ++ [Sleep 5000]) frames).
Proof.
  induction frames as [|[id c] frames IH]; intros w Hfree Hfr; cbn [for_each flat_map].
  - reflexivity.
  - apply Forall_cons_iff in Hfr as [(Hid & Hc & Hlen) Hfr]. cbn [fst snd] in *.
    assert (Hstep : (send_can_message id c ;; sleep 5000) w
                    = (Ret tt, w, frame_events id c ++ [Sleep 5000])).
    { unfold bind at 1. rewrite send_can_message_run
        by (try apply forallb_is_byte; assumption).
      replace ((0 <=? id) && (id <=? 0x7FF)) with true
        by (symmetry; apply andb_true_iff; rewrite !Z.leb_le; lia).
      reflexivity. }
    rewrite (bind_Ret _ _ _ _ _ _ Hstep), IH by assumption. reflexivity.
Qed.

(** [send_adc_data_via_can] once the payload has been packed: what is left
    is the loop over the chunk offsets. *)
Lemma send_adc_data_via_can_loop w :
  Forall (fun v => 0 <= v <= 65535) (adc_data w) ->
  send_adc_data_via_can w =
    for_each
      (range_step 0 (len (flat_map (fun v => [Z.shiftr v 8; Z.land v 255]) (adc_data w))) 8)
      (fun i =>
         send_can_message (0x100 + i / 8)
           (slice (flat_map (fun v => [Z.shiftr v 8; Z.land v 255]) (adc_data w)) i
              (i + Z.min 8 (len (flat_map (fun v => [Z.shiftr v 8; Z.land v 255])
                                   (adc_data w)) - i))) ;;
         sleep 5000) w.
Proof.
  intros Hdata. unfold send_adc_data_via_can.
  unfold bind at 1, get at 1.
  rewrite (bind_Ret _ _ _ _ _ _ (pack_loop_run (adc_data w) [] w Hdata)).
  cbn [app]. symmetry. apply run_eta.
Qed.

(** The readings of the first cycle after construction fit 16 bits. *)
Lemma first_cycle_in_range :
  Forall (fun v => 0 <= v <= 65535)
         (adc_data (final (sample_all_channels (booted ramp)))).
Proof.
  replace (adc_data (final (sample_all_channels (booted ramp))))
    with [0; 100; 200; 300; 400; 500; 600; 800; 900; 1000; 1100; 1200; 1300; 1400;
          1500; 1600; 1700; 1800; 1900; 2000; 2100; 2200; 2300]
    by (vm_compute; reflexivity).
  repeat (apply Forall_cons; [lia|]). apply Forall_nil.
Qed.

(** C5. With 23 readings that fit 16 bits, send_adc_data_via_can packs
    them big-endian into 46 bytes, cuts these into 6 consecutive chunks
    of 8, 8, 8, 8, 8 and 6 bytes, and sends chunk k as the CAN frame with
    identifier 0x100 + k, in ascending order, each followed by its pause:
    the call is the six send_can_message calls in a row, it returns
    normally, and the controller sees the three bursts of each frame. *)
Theorem send_adc_data_via_can_frames w :
  spi1_locked w = false ->
  length (adc_data w) = 23%nat ->
  Forall (fun v => 0 <= v <= 65535) (adc_data w) ->
  let payload := flat_map (fun v => [Z.shiftr v 8; Z.land v 255]) (adc_data w) in
  let chunks := map (fun k => firstn 8 (skipn (8 * k) payload)) (seq 0 6) in
  length payload = 46%nat
  /\ Forall (fun v => Z.shiftr v 8 * 256 + Z.land v 255 = v) (adc_data w)
  /\ concat chunks = payload
  /\ map length chunks = [8; 8; 8; 8; 8; 6]%nat
  /\ frame_ids = map (fun k => 0x100 + Z.of_nat k) (seq 0 6)
  /\ send_adc_data_via_can w
     = for_each (combine frame_ids chunks)
         (fun f => send_can_message (fst f) (snd f) ;; sleep 5000) w
  /\ outcome (send_adc_data_via_can w) = Ret tt
  /\ can_bursts (events (send_adc_data_via_can w))
     = flat_map (fun f => [[0x40; 0x08];
                           [Z.shiftr (fst f) 3; Z.shiftl (Z.land (fst f) 0x07) 5; 0; 0;
                            len (snd f)] ++ snd f;
                           [0x81]])
         (combine frame_ids chunks).
Proof.
  intros Hfree Hlen Hdata payload chunks.
  assert (Hframes :
    Forall (fun f => 0 <= fst f <= 0x7FF
                     /\ Forall (fun b => 0 <= b <= 255) (snd f)
                     /\ (length (snd f) <= 255)%nat) (combine frame_ids chunks)).
  { pose proof (payload_is_bytes _ Hdata) as Hbytes. fold payload in Hbytes.
    subst chunks. cbn [map seq combine frame_ids].
    repeat (apply Forall_cons; [cbn [fst snd]; split; [lia|split];
      [apply Forall_take, Forall_drop, Hbytes | rewrite length_take; lia]|]).
    apply Forall_nil. }
  assert (Hprog : send_adc_data_via_can w
                  = for_each (combine frame_ids chunks)
                      (fun f => send_can_message (fst f) (snd f) ;; sleep 5000) w).
  { rewrite send_adc_data_via_can_loop by assumption. fold payload. subst chunks payload.
    destruct (list_of_length_23 _ Hlen)
      as (a0&a1&a2&a3&a4&a5&a6&a7&a8&a9&a10&a11&a12&a13&a14&a15&a16&a17&a18&a19&a20&a21&a22&->).
    reflexivity. }
  assert (Hrun := send_frames_run _ w Hfree Hframes).
  split; [|split; [|split; [|split; [|split; [|split; [|split]]]]]].
  - subst payload. destruct (list_of_length_23 _ Hlen)
      as (a0&a1&a2&a3&a4&a5&a6&a7&a8&a9&a10&a11&a12&a13&a14&a15&a16&a17&a18&a19&a20&a21&a22&->).
    reflexivity.
  - eapply Forall_impl; [|exact Hdata]. intros v Hv. apply pack_H_bytes, Hv.
  - subst chunks payload. destruct (list_of_length_23 _ Hlen)
      as (a0&a1&a2&a3&a4&a5&a6&a7&a8&a9&a10&a11&a12&a13&a14&a15&a16&a17&a18&a19&a20&a21&a22&->).
    reflexivity.
  - subst chunks payload. destruct (list_of_length_23 _ Hlen)
      as (a0&a1&a2&a3&a4&a5&a6&a7&a8&a9&a10&a11&a12&a13&a14&a15&a16&a17&a18&a19&a20&a21&a22&->).
    reflexivity.
  - reflexivity.
  - exact Hprog.
  - rewrite Hprog, Hrun. reflexivity.
  - rewrite Hprog, Hrun. cbn [events snd]. subst chunks.
    cbn [map seq combine frame_ids flat_map]. reflexivity.
Qed.

Lemma send_adc_data_via_can_frames_witness :
  let w := final (sample_all_channels (booted ramp)) in
  let payload := flat_map (fun v => [Z.shiftr v 8; Z.land v 255]) (adc_data w) in
  let chunks := map (fun k => firstn 8 (skipn (8 * k) payload)) (seq 0 6) in
  length payload = 46%nat
  /\ Forall (fun v => Z.shiftr v 8 * 256 + Z.land v 255 = v) (adc_data w)
  /\ concat chunks = payload
  /\ map length chunks = [8; 8; 8; 8; 8; 6]%nat
  /\ frame_ids = map (fun k => 0x100 + Z.of_nat k) (seq 0 6)
  /\ send_adc_data_via_can w
     = for_each (combine frame_ids chunks)
         (fun f => send_can_message (fst f) (snd f) ;; sleep 5000) w
  /\ outcome (send_adc_data_via_can w) = Ret tt
  /\ can_bursts (events (send_adc_data_via_can w))
     = flat_map (fun f => [[0x40; 0x08];
                           [Z.shiftr (fst f) 3; Z.shiftl (Z.land (fst f) 0x07) 5; 0; 0;
                            len (snd f)] ++ snd f;
                           [0x81]])
         (combine frame_ids chunks).
Proof.
  apply (send_adc_data_via_can_frames (final (sample_all_channels (booted ramp)))).
  - reflexivity.
  - reflexivity.
  - exact first_cycle_in_range.
Defined.


(** ** Logging to the card *)

Lemma string_app_assoc (a b c : string) :
  ((a ++ b) ++ c)%string = (a ++ (b ++ c))%string.
Proof. induction a as [|x a IH]; cbn; [reflexivity|]. rewrite IH. reflexivity. Qed.

Lemma string_app_nil_r (a : string) : (a ++ "")%string = a.
Proof. induction a as [|x a IH]; cbn; [reflexivity|]. rewrite IH. reflexivity. Qed.

Lemma f_write_run s w c :
  log_file (sd w) = Some c ->
  f_write s w = (Ret tt, put_log (c ++ s) w, []).
Proof. intros Hc. unfold f_write, modify, put_log. rewrite Hc. reflexivity. Qed.

(** The loop over the readings appends their text to the open file. *)
Lemma write_values_run data : forall w c,
  log_file (sd w) = Some c ->
  for_each data (fun value => f_write ("," ++ str value)%string) w
  = (Ret tt, put_log (c ++ readings_text data) w, []).
Proof.
  induction data as [|v data IH]; intros w c Hc; cbn [for_each readings_text fold_right].
  - unfold ret, put_log. rewrite string_app_nil_r, <- Hc.
    destruct w as [adc l0 l1 wire n [li mo wr lf]]. reflexivity.
  - rewrite (bind_Ret _ _ _ _ _ _ (f_write_run _ w c Hc)).
    rewrite (IH _ (c ++ ("," ++ str v))%string) by reflexivity.
    cbn [outcome final events fst snd app]. unfold put_log. cbn.
    rewrite string_app_assoc. reflexivity.
Qed.

(** The append block: open for appending, then timestamp, readings and
    newline. *)
Lemma append_block_run timestamp w :
  writable (sd w) = true ->
  (open ModeA ;;
   f_write timestamp ;;
   (let* data := get adc_data in
    for_each data (fun value => f_write ("," ++ str value)%string)) ;;
   f_write newline) w
  = (Ret tt,
     put_log (match log_file (sd w) with Some c => c | None => "" end
              ++ csv_row timestamp (adc_data w)) w,
     [FsOpen ModeA true]).
Proof.
  intros Hwr.
  set (c := match log_file (sd w) with Some c => c | None => EmptyString end).
  assert (Hopen : open ModeA w = (Ret tt, put_log c w, [FsOpen ModeA true])).
  { unfold open. rewrite Hwr. subst c. destruct (log_file (sd w)); reflexivity. }
  rewrite (bind_Ret _ _ _ _ _ _ Hopen).
  rewrite (bind_Ret _ _ _ _ _ _ (f_write_run timestamp (put_log c w) c eq_refl)).
  assert (Hloop :
    (let* data := get adc_data in
     for_each data (fun value => f_write ("," ++ str value)%string))
      (put_log (c ++ timestamp) (put_log c w))
    = (Ret tt, put_log ((c ++ timestamp) ++ readings_text (adc_data w)) w, [])).
  { unfold bind at 1, get at 1.
    rewrite (write_values_run _ _ (c ++ timestamp)%string) by reflexivity.
    reflexivity. }
  rewrite (bind_Ret _ _ _ _ _ _ Hloop).
  rewrite (f_write_run newline _ ((c ++ timestamp) ++ readings_text (adc_data w))%string)
    by reflexivity.
  cbn [outcome final events fst snd app]. unfold csv_row, put_log. cbn.
  rewrite !string_app_assoc. reflexivity.
Qed.

(** The header block, run when the file is missing. *)
Lemma header_block_run w :
  writable (sd w) = true ->
  (open ModeW ;;
   f_write "timestamp" ;;
   for_each (range 0 23) (fun i => f_write ("," ++ "adc" ++ str i)%string) ;;
   f_write newline) w
  = (Ret tt, put_log csv_header w, [FsOpen ModeW true]).
Proof.
  intros Hwr. destruct w as [adc l0 l1 wire n [li mo wr lf]]. cbn in Hwr. subst wr.
  reflexivity.
Qed.

(** [bind_Ret] with the rest of the run kept in one piece. *)
Lemma bind_Ret_in {A B} (m : M A) (k : A -> M B) w a w1 ev1 :
  m w = (Ret a, w1, ev1) ->
  bind m k w = (let '(o, w2, ev2) := k a w1 in (o, w2, ev1 ++ ev2)).
Proof. intros H. unfold bind. rewrite H. reflexivity. Qed.

(** One step of a run: the append block as a whole when it is next and
    can be opened, else the first action of a sequence. *)
Ltac run_step :=
  first
    [ rewrite append_block_run by reflexivity
    | erewrite bind_Raise; [|reflexivity]
    | erewrite bind_Ret_in;
        [|first [apply header_block_run; reflexivity | reflexivity]] ];
  cbn beta iota; cbn [negb].

(** Every way [log_data_to_sd] can go. The directory listing, and after
    a failed listing the remount, decide whether the record is attempted;
    the attempt itself succeeds when the file can be opened. The call
    returns normally in every case. *)
Lemma log_data_to_sd_run timestamp w :
  let found := match log_file (sd w) with Some _ => true | None => false end in
  let checked :=
    if listable (sd w) then [FsListdir true]
    else FsListdir false :: Console "SD card directory issue - remounting"
         :: match mounting (sd w) with
            | Mounts => [FsMount true]
            | MountRaises => [FsMount false; ConsoleExn "Remount failed: " MountError]
            | Unbound => [ConsoleExn "Remount failed: " AttributeError]
            end in
  let w1 := if listable (sd w) then w else with_sd (set_listable true (sd w)) w in
  log_data_to_sd timestamp w =
    if listable (sd w) || mountable (sd w) then
      if writable (sd w) then
        (Ret tt, put_log (logged timestamp w) w1,
         checked ++ FsStat found :: (if found then [] else [FsOpen ModeW true])
                 ++ [FsOpen ModeA true])
      else
        (Ret tt, w1,
         checked ++ [FsStat found; FsOpen (if found then ModeA else ModeW) false;
                     ConsoleExn "Error logging to SD card: " OSError])
    else (Ret tt, w, checked).
Proof.
  destruct w as [adc l0 l1 wire n [li mo wr [c|]]];
    destruct li, mo, wr;
    cbn [sd listable mountable mounting writable log_file orb];
    unfold log_data_to_sd; unfold try_except at 1;
    repeat run_step; reflexivity.
Qed.

(** C8. When the volume can be reached (listed, or remounted) and the file
    can be opened, log_data_to_sd returns normally and leaves in the log
    file: the header row followed by the data row if there was no file,
    the old content followed by the data row if there was one; the file is
    opened for writing exactly when it did not exist. The data row is the
    timestamp, then a comma and the decimal number for each reading in
    channel order, then a newline; the header row is
    timestamp,adc0,...,adc22 and a newline. The readings are not
    changed. *)
Theorem log_data_to_sd_appends timestamp w :
  listable (sd w) = true \/ mountable (sd w) = true ->
  writable (sd w) = true ->
  let r := log_data_to_sd timestamp w in
  outcome r = Ret tt
  /\ log_file (sd (final r))
     = Some (match log_file (sd w) with None => csv_header | Some c => c end
             ++ csv_row timestamp (adc_data w))%string
  /\ (In (FsOpen ModeW true) (events r) <-> log_file (sd w) = None)
  /\ In (FsOpen ModeA true) (events r)
  /\ adc_data (final r) = adc_data w
  /\ csv_row timestamp (adc_data w)
     = (timestamp ++ fold_right (fun v rest => "," ++ str v ++ rest) "" (adc_data w)
                  ++ newline)%string
  /\ csv_header
     = ("timestamp,adc0,adc1,adc2,adc3,adc4,adc5,adc6,adc7,adc8,adc9,adc10,adc11,adc12,adc13,adc14,adc15,adc16,adc17,adc18,adc19,adc20,adc21,adc22"
        ++ newline)%string.
Proof.
  intros Hreach Hwr r. subst r. rewrite log_data_to_sd_run.
  assert (Hok : listable (sd w) || mountable (sd w) = true)
    by (apply orb_true_iff; exact Hreach).
  rewrite Hok, Hwr. cbn [outcome final events fst snd].
  assert (Hchecked : forall m ok,
    ~ In (FsOpen m ok)
      (if listable (sd w) then [FsListdir true]
       else FsListdir false :: Console "SD card directory issue - remounting"
            :: match mounting (sd w) with
               | Mounts => [FsMount true]
               | MountRaises => [FsMount false; ConsoleExn "Remount failed: " MountError]
               | Unbound => [ConsoleExn "Remount failed: " AttributeError]
               end)).
  { intros m ok H. destruct (listable (sd w)), (mounting (sd w));
      repeat (destruct H as [H|H]; [discriminate H|]); exact H. }
  split; [reflexivity|]. split; [|split; [|split; [|split; [|split]]]].
  - destruct (listable (sd w)); reflexivity.
  - split.
    + intros H. apply in_app_or in H as [H|H]; [destruct (Hchecked _ _ H)|].
      destruct (log_file (sd w)); [|reflexivity].
      repeat (destruct H as [H|H]; [discriminate H|]). destruct H.
    + intros Hnone. rewrite Hnone. apply in_or_app. right. right. left. reflexivity.
  - apply in_or_app. right. right. apply in_or_app. right. left. reflexivity.
  - destruct (listable (sd w)); reflexivity.
  - reflexivity.
  - reflexivity.
Qed.

Lemma log_data_to_sd_appends_witness :
  let r := log_data_to_sd "12.5" (booted ramp) in
  outcome r = Ret tt
  /\ log_file (sd (final r))
     = Some (match log_file (sd (booted ramp)) with None => csv_header | Some c => c end
             ++ csv_row "12.5" (adc_data (booted ramp)))%string
  /\ (In (FsOpen ModeW true) (events r) <-> log_file (sd (booted ramp)) = None)
  /\ In (FsOpen ModeA true) (events r)
  /\ adc_data (final r) = adc_data (booted ramp)
  /\ csv_row "12.5" (adc_data (booted ramp))
     = ("12.5" ++ fold_right (fun v rest => "," ++ str v ++ rest) ""
                    (adc_data (booted ramp))
               ++ newline)%string
  /\ csv_header
     = ("timestamp,adc0,adc1,adc2,adc3,adc4,adc5,adc6,adc7,adc8,adc9,adc10,adc11,adc12,adc13,adc14,adc15,adc16,adc17,adc18,adc19,adc20,adc21,adc22"
        ++ newline)%string.
Proof.
  apply (log_data_to_sd_appends "12.5" (booted ramp)).
  - left. reflexivity.
  - reflexivity.
Defined.

(** The record of the cycle that follows construction, as an example:
    entry 0 is the stale 0 and the reading of input 7 is missing. *)
Example first_record :
  log_file (sd (final ((sample_all_channels ;; log_data_to_sd "12.5") (booted ramp))))
  = Some (csv_header ++
          "12.5,0,100,200,300,400,500,600,800,900,1000,1100,1200,1300,1400,1500,1600,1700,1800,1900,2000,2100,2200,2300"
          ++ newline)%string.
Proof. vm_compute. reflexivity. Qed.


(** * Further properties *)

(** ** Channel numbers out of range *)

Lemma low_bit_test c k :
  0 <= k -> negb (Z.land (Z.shiftr c k) 1 =? 0) = Z.testbit c k.
Proof.
  intros Hk. rewrite Z.testbit_odd.
  change 1 with (Z.ones 1). rewrite Z.land_ones by lia. change (2 ^ 1) with 2.
  rewrite Zodd_mod.
  pose proof (Z.mod_pos_bound (Z.shiftr c k) 2 ltac:(lia)) as Hb.
  destruct (Z.eq_dec (Z.shiftr c k mod 2) 0) as [->|Hne]; [reflexivity|].
  replace (Z.shiftr c k mod 2) with 1 by lia. reflexivity.
Qed.

Lemma set_mux_channel_events channel w :
  events (set_mux_channel channel w)
  = [SetPin MUX_CS false;
     SetPin MUX_S0 (Z.testbit channel 0); SetPin MUX_S1 (Z.testbit channel 1);
     SetPin MUX_S2 (Z.testbit channel 2); SetPin MUX_S3 (Z.testbit channel 3);
     Sleep 5].
Proof.
  rewrite <- (low_bit_test channel 1), <- (low_bit_test channel 2),
    <- (low_bit_test channel 3) by lia.
  rewrite <- (low_bit_test channel 0) by lia. rewrite Z.shiftr_0_r. reflexivity.
Qed.

(** set_mux_channel accepts any integer: the select lines take the four
    low bits of the channel, first line bit 0, so a channel and its rest
    modulo 16 select the same input; the multiplexer is enabled, no other
    pin moves and the state is untouched. *)
Theorem set_mux_channel_low_bits channel lv w :
  let lv' := levels_after lv (events (set_mux_channel channel w)) in
  outcome (set_mux_channel channel w) = Ret tt
  /\ final (set_mux_channel channel w) = w
  /\ mux_select lv'
     = [Z.testbit channel 0; Z.testbit channel 1; Z.testbit channel 2; Z.testbit channel 3]
  /\ mux_select lv'
     = mux_select (levels_after lv (events (set_mux_channel (channel mod 16) w)))
  /\ lv' MUX_CS = false
  /\ lv' SD_CS = lv SD_CS /\ lv' ADC_CS = lv ADC_CS /\ lv' CAN_CS = lv CAN_CS.
Proof.
  intros lv'. subst lv'. rewrite !set_mux_channel_events.
  change 16 with (2 ^ 4). rewrite !Z.mod_pow2_bits_low by lia.
  repeat split.
Qed.

Lemma adc_command_mod channel : adc_command channel = 128 + 16 * (channel mod 8).
Proof.
  unfold adc_command. change 7 with (Z.ones 3). rewrite Z.land_ones by lia.
  change (2 ^ 3) with 8.
  pose proof (Z.mod_pos_bound channel 8 ltac:(lia)) as Hb.
  assert (Hcases : channel mod 8 = 0 \/ channel mod 8 = 1 \/ channel mod 8 = 2
                   \/ channel mod 8 = 3 \/ channel mod 8 = 4 \/ channel mod 8 = 5
                   \/ channel mod 8 = 6 \/ channel mod 8 = 7) by lia.
  destruct Hcases as [->|[->|[->|[->|[->|[->|[->| ->]]]]]]]; reflexivity.
Qed.

(** read_adc_channel accepts any integer and only looks at the channel
    modulo 8: the command byte is 0x80 + 16 * (channel mod 8), the call does
    exactly what it does for channel mod 8 (channel 8 reads input 0), and it
    never raises. *)
Theorem read_adc_channel_wraps channel w :
  adc_command channel = 128 + 16 * (channel mod 8)
  /\ read_adc_channel channel w = read_adc_channel (channel mod 8) w
  /\ (forall e, outcome (read_adc_channel channel w) <> Raise e).
Proof.
  split; [apply adc_command_mod|]. split.
  - unfold read_adc_channel. rewrite (adc_command_mod (channel mod 8)).
    rewrite Z.mod_mod by lia. rewrite <- adc_command_mod. reflexivity.
  - intros e. destruct (spi0_locked w) eqn:Hl.
    + destruct w as [data l0 l1 wire n s]. cbn in Hl. subst l0. discriminate.
    + rewrite read_adc_channel_run by assumption. discriminate.
Qed.

(** With SPI0 held, sample_all_channels never returns: it asserts the ADC
    chip select, waits for the lock for ever, and has neither made an
    exchange nor touched the state. *)
Theorem sample_all_channels_held_bus w :
  spi0_locked w = true ->
  sample_all_channels w = (Spin, w, [SetPin ADC_CS false; Sleep 1])
  /\ levels_after (fun _ => true) (events (sample_all_channels w)) ADC_CS = false.
Proof.
  intros Hl. destruct w as [data l0 l1 wire n s]. cbn in Hl. subst l0.
  split; reflexivity.
Qed.

Lemma sample_all_channels_held_bus_witness :
  sample_all_channels (with_lock SPI0 true (booted ramp))
  = (Spin, with_lock SPI0 true (booted ramp), [SetPin ADC_CS false; Sleep 1])
  /\ levels_after (fun _ => true)
       (events (sample_all_channels (with_lock SPI0 true (booted ramp)))) ADC_CS = false.
Proof.
  apply (sample_all_channels_held_bus (with_lock SPI0 true (booted ramp))).
  reflexivity.
Defined.

(** ** Sending a frame, in general *)

Lemma len_is_byte_leb {A} (l : list A) : is_byte (len l) = (length l <=? 255)%nat.
Proof.
  unfold is_byte, len.
  destruct (length l <=? 255)%nat eqn:H;
    [apply Nat.leb_le in H|apply Nat.leb_gt in H].
  - apply andb_true_iff. rewrite !Z.leb_le. lia.
  - apply andb_false_iff. right. apply Z.leb_gt. lia.
Qed.

(** [send_can_message] on a free bus, whatever it is given. Both
    [bytearray([...])] and [buffer.extend(data)] come after the first burst
    and before the second write, so every failure looks the same. *)
Lemma send_can_message_any id data w :
  spi1_locked w = false ->
  send_can_message id data w =
    if (0 <=? id) && (id <=? 0x7FF) && (length data <=? 255)%nat && forallb is_byte data
    then (Ret tt, w, frame_events id data)
    else (Raise ValueError, w,
          [SetPin CAN_CS false; SpiWrite SPI1 [0x40; 0x08]; SetPin CAN_CS true;
           SetPin CAN_CS false]).
Proof.
  intros Hfree. destruct w as [adc l0 l1 wire n s]. cbn in Hfree. subst l1.
  unfold send_can_message, bind, try_finally, lock, unlock, bytes, extend,
    modify, set_pin, spi_write, emit, ret, raise, locked, frame_events.
  cbn [forallb]. rewrite id_high_is_byte, id_low_is_byte, len_is_byte_leb.
  destruct ((0 <=? id) && (id <=? 0x7FF)), (length data <=? 255)%nat,
    (forallb is_byte data); reflexivity.
Qed.

(** On a free bus send_can_message returns normally exactly when the
    identifier is within 0..0x7FF, the payload has at most 255 elements and
    each of them fits a byte; otherwise it raises ValueError. Either way the
    bus lock is released and the state is what it was, and the
    load-TX-buffer burst has gone out. *)
Theorem send_can_message_raises_exactly id data w :
  spi1_locked w = false ->
  outcome (send_can_message id data w)
    = (if (0 <=? id) && (id <=? 0x7FF) && (length data <=? 255)%nat
          && forallb is_byte data
       then Ret tt else Raise ValueError)
  /\ final (send_can_message id data w) = w
  /\ can_bursts (events (send_can_message id data w)) !! 0%nat = Some [0x40; 0x08].
Proof.
  intros Hfree. rewrite send_can_message_any by assumption.
  destruct ((0 <=? id) && (id <=? 0x7FF) && (length data <=? 255)%nat
            && forallb is_byte data); repeat split.
Qed.

Lemma send_can_message_raises_exactly_witness :
  outcome (send_can_message 0x100 [1; 256] (booted ramp))
    = (if (0 <=? 0x100) && (0x100 <=? 0x7FF) && (length [1; 256] <=? 255)%nat
          && forallb is_byte [1; 256]
       then Ret tt else Raise ValueError)
  /\ final (send_can_message 0x100 [1; 256] (booted ramp)) = booted ramp
  /\ can_bursts (events (send_can_message 0x100 [1; 256] (booted ramp))) !! 0%nat
     = Some [0x40; 0x08].
Proof.
  apply (send_can_message_raises_exactly 0x100 [1; 256] (booted ramp)). reflexivity.
Defined.

(** After send_can_message on a free bus the CAN chip select is high again
    when the call returned normally, and is left low (controller still
    selected) when it raised. *)
Theorem send_can_message_chip_select id data w lv :
  spi1_locked w = false ->
  levels_after lv (events (send_can_message id data w)) CAN_CS
  = match outcome (send_can_message id data w) with
    | Ret _ => true
    | _ => false
    end.
Proof.
  intros Hfree. rewrite send_can_message_any by assumption.
  destruct ((0 <=? id) && (id <=? 0x7FF) && (length data <=? 255)%nat
            && forallb is_byte data); reflexivity.
Qed.

Lemma send_can_message_chip_select_witness :
  levels_after (fun _ => true) (events (send_can_message 0x800 [] (booted ramp))) CAN_CS
  = match outcome (send_can_message 0x800 [] (booted ramp)) with
    | Ret _ => true
    | _ => false
    end.
Proof.
  apply (send_can_message_chip_select 0x800 [] (booted ramp) (fun _ => true)).
  reflexivity.
Defined.

(** The two identifier bytes give the identifier back, for each of the
    2048 standard identifiers. *)
Lemma id_bytes_round_trip id :
  0 <= id <= 0x7FF ->
  Z.lor (Z.shiftl (Z.shiftr id 3) 3) (Z.shiftr (Z.shiftl (Z.land id 0x07) 5) 5) = id.
Proof.
  intros Hid.
  assert (Hall : forallb (fun i =>
            Z.lor (Z.shiftl (Z.shiftr i 3) 3) (Z.shiftr (Z.shiftl (Z.land i 0x07) 5) 5) =? i)
            (range 0 2048) = true) by (vm_compute; reflexivity).
  rewrite forallb_forall in Hall. apply Z.eqb_eq, Hall, range_spec. lia.
Qed.

(** What send_can_message writes in its second burst can be read back: for
    an 11-bit identifier and a payload of at most 255 bytes, the first two
    bytes recombine to the identifier as (b[0] << 3) | (b[1] >> 5), the
    fifth byte is the payload length and the rest is the payload. *)
Theorem send_can_message_header_round_trip id data w :
  spi1_locked w = false ->
  0 <= id <= 0x7FF ->
  Forall (fun b => 0 <= b <= 255) data ->
  (length data <= 255)%nat ->
  exists b,
    can_bursts (events (send_can_message id data w)) !! 1%nat = Some b
    /\ Z.lor (Z.shiftl (nth 0 b 0) 3) (Z.shiftr (nth 1 b 0) 5) = id
    /\ nth 4 b 0 = len data
    /\ skipn 5 b = data.
Proof.
  intros Hfree Hid Hdata Hlen.
  rewrite send_can_message_run by (try apply forallb_is_byte; assumption).
  replace ((0 <=? id) && (id <=? 0x7FF)) with true
    by (symmetry; apply andb_true_iff; rewrite !Z.leb_le; lia).
  eexists. split; [reflexivity|]. cbn [nth app skipn].
  split; [apply id_bytes_round_trip, Hid|]. split; reflexivity.
Qed.

Lemma send_can_message_header_round_trip_witness :
  exists b,
    can_bursts (events (send_can_message 0x105 [8; 52] (booted ramp))) !! 1%nat = Some b
    /\ Z.lor (Z.shiftl (nth 0 b 0) 3) (Z.shiftr (nth 1 b 0) 5) = 0x105
    /\ nth 4 b 0 = len [8; 52]
    /\ skipn 5 b = [8; 52].
Proof.
  apply (send_can_message_header_round_trip 0x105 [8; 52] (booted ramp)).
  - reflexivity.
  - lia.
  - repeat (apply Forall_cons; [lia|]). apply Forall_nil.
  - simpl; lia.
Defined.

(** Neither init_can_controller nor send_can_message ever writes a byte
    on SPI1 while the controller is deselected: the bytes of the
    chip-select bursts are all the bytes written. *)
Theorem can_writes_inside_bursts id data w :
  spi1_locked w = false ->
  concat (can_bursts (events (send_can_message id data w)))
    = spi1_bytes (events (send_can_message id data w))
  /\ concat (can_bursts (events (init_can_controller w)))
    = spi1_bytes (events (init_can_controller w)).
Proof.
  intros Hfree. rewrite send_can_message_any, init_can_controller_run by assumption.
  split; [|reflexivity].
  destruct ((0 <=? id) && (id <=? 0x7FF) && (length data <=? 255)%nat
            && forallb is_byte data); cbn; rewrite ?app_nil_r; reflexivity.
Qed.

Lemma can_writes_inside_bursts_witness :
  concat (can_bursts (events (send_can_message 0x100 [1; 2; 3] (booted ramp))))
    = spi1_bytes (events (send_can_message 0x100 [1; 2; 3] (booted ramp)))
  /\ concat (can_bursts (events (init_can_controller (booted ramp))))
    = spi1_bytes (events (init_can_controller (booted ramp))).
Proof.
  apply (can_writes_inside_bursts 0x100 [1; 2; 3] (booted ramp)). reflexivity.
Defined.

(** ** Transmitting a vector of any length *)

Lemma bind_ext {A B} (m1 m2 : M A) (k1 k2 : A -> M B) w :
  m1 w = m2 w ->
  (forall a w', k1 a w' = k2 a w') ->
  bind m1 k1 w = bind m2 k2 w.
Proof.
  intros Hm Hk. unfold bind. rewrite Hm.
  destruct (m2 w) as [[[a|e|] w1] ev1]; [rewrite Hk|..]; reflexivity.
Qed.

Lemma for_each_ext {A} (xs : list A) (body1 body2 : A -> M unit) :
  (forall x, In x xs -> forall w, body1 x w = body2 x w) ->
  forall w, for_each xs body1 w = for_each xs body2 w.
Proof.
  induction xs as [|x xs IH]; intros Hb w; cbn [for_each]; [reflexivity|].
  apply bind_ext; [apply Hb; left; reflexivity|].
  intros _ w'. apply IH. intros y Hy. apply Hb. right. exact Hy.
Qed.

Lemma for_each_map {A B} (f : A -> B) (xs : list A) (body : B -> M unit) :
  forall w, for_each (map f xs) body w = for_each xs (fun x => body (f x)) w.
Proof.
  induction xs as [|x xs IH]; intros w; cbn [for_each map]; [reflexivity|].
  apply bind_ext; [reflexivity|]. intros _ w'. apply IH.
Qed.

Lemma length_packed data : length (packed data) = (2 * length data)%nat.
Proof.
  unfold packed. induction data as [|v data IH]; [reflexivity|].
  cbn [flat_map app length]. rewrite IH. lia.
Qed.

(** The slice the loop takes at offset [8k] is the clamped chunk. *)
Lemma slice_chunk (l : list Z) (k : nat) :
  (8 * k < length l)%nat ->
  slice l (0 + Z.of_nat k * 8)
        ((0 + Z.of_nat k * 8) + Z.min 8 (len l - (0 + Z.of_nat k * 8)))
  = firstn 8 (skipn (8 * k) l).
Proof.
  intros Hk. unfold slice, len.
  replace (Z.to_nat (0 + Z.of_nat k * 8)) with (8 * k)%nat by lia.
  destruct (Nat.le_gt_cases 8 (length l - 8 * k)) as [Hfull|Hshort].
  - f_equal. lia.
  - replace (Z.to_nat (0 + Z.of_nat k * 8 + Z.min 8 (Z.of_nat (length l) - (0 + Z.of_nat k * 8))
                       - (0 + Z.of_nat k * 8)))
      with (length (skipn (8 * k) l)) by (rewrite length_skipn; lia).
    rewrite firstn_all. symmetry. apply firstn_all2. rewrite length_skipn. lia.
Qed.

Lemma chunk_count {A} (l : list A) :
  Z.to_nat ((len l - 0 + 8 - 1) / 8) = ((length l + 7) / 8)%nat.
Proof.
  unfold len.
  replace (Z.of_nat (length l) - 0 + 8 - 1) with (Z.of_nat (length l + 7)) by lia.
  change 8 with (Z.of_nat 8) at 1. rewrite <- Nat2Z.inj_div. apply Nat2Z.id.
Qed.

Lemma chunk_index_bound (n k : nat) : (k < (n + 7) / 8)%nat -> (8 * k < n)%nat.
Proof.
  intros Hk. pose proof (Nat.div_mod_eq (n + 7) 8) as Hd.
  pose proof (Nat.mod_upper_bound (n + 7) 8 ltac:(lia)) as Hm. lia.
Qed.

(** The chunk loop is the sequence of the frames of [chunk_frames]. *)
Lemma chunk_loop_frames (all_bytes : list Z) w :
  for_each (range_step 0 (len all_bytes) 8)
    (fun i =>
       send_can_message (0x100 + i / 8)
         (slice all_bytes i (i + Z.min 8 (len all_bytes - i))) ;;
       sleep 5000) w
  = for_each (chunk_frames all_bytes)
      (fun f => send_can_message (fst f) (snd f) ;; sleep 5000) w.
Proof.
  unfold range_step, chunk_frames. rewrite chunk_count, !for_each_map.
  apply for_each_ext. intros k Hk w'. apply in_seq in Hk. cbn [fst snd].
  rewrite (slice_chunk all_bytes k) by (apply chunk_index_bound; lia).
  replace ((0 + Z.of_nat k * 8) / 8) with (Z.of_nat k)
    by (rewrite Z.add_0_l, Z.div_mul by lia; reflexivity).
  reflexivity.
Qed.

(** [send_adc_data_via_can] for any number of readings that fit 16 bits,
    as long as the identifiers stay within 11 bits. *)
Lemma send_adc_data_via_can_run w :
  spi1_locked w = false ->
  Forall (fun v => 0 <= v <= 65535) (adc_data w) ->
  len (adc_data w) <= 7168 ->
  send_adc_data_via_can w
  = (Ret tt, w,
     flat_map (fun f => frame_events (fst f) (snd f) ++ [Sleep 5000])
       (chunk_frames (packed (adc_data w)))).
Proof.
  intros Hfree Hdata Hlen.
  rewrite send_adc_data_via_can_loop by assumption. fold (packed (adc_data w)).
  rewrite chunk_loop_frames. apply send_frames_run; [assumption|].
  pose proof (payload_is_bytes _ Hdata) as Hbytes. fold (packed (adc_data w)) in Hbytes.
  pose proof (length_packed (adc_data w)) as Hl. unfold len in Hlen.
  unfold chunk_frames. apply Forall_forall. intros f Hf.
  apply in_map_iff in Hf as (k & <- & Hk). apply in_seq in Hk. cbn [fst snd].
  pose proof (chunk_index_bound _ _ (proj2 Hk)) as Hk8.
  split; [lia|]. split.
  - apply Forall_take, Forall_drop, Hbytes.
  - rewrite length_take. lia.
Qed.

Lemma bursts_of_frame id (c : list Z) rest :
  bursts_from None ((frame_events id c ++ [Sleep 5000]) ++ rest)
  = frame_bursts (id, c) ++ bursts_from None rest.
Proof. reflexivity. Qed.

Lemma bursts_of_frames (frames : list (Z * list Z)) :
  can_bursts (flat_map (fun f => frame_events (fst f) (snd f) ++ [Sleep 5000]) frames)
  = flat_map frame_bursts frames.
Proof.
  unfold can_bursts.
  induction frames as [|[id c] frames IH]; cbn [flat_map fst snd]; [reflexivity|].
  rewrite bursts_of_frame, IH. reflexivity.
Qed.

Lemma payloads_of_bursts (frames : list (Z * list Z)) :
  frame_payloads (flat_map frame_bursts frames) = concat (map snd frames).
Proof.
  induction frames as [|[id c] frames IH]; cbn [flat_map map concat]; [reflexivity|].
  rewrite <- IH. reflexivity.
Qed.

(** Cutting a list into chunks of 8 loses nothing. *)
Lemma chunks_concat (c : nat) : forall l : list Z,
  (length l <= 8 * c)%nat ->
  concat (map (fun k => firstn 8 (skipn (8 * k) l)) (seq 0 c)) = l.
Proof.
  induction c as [|c IH]; intros l Hl.
  - destruct l; [reflexivity|cbn in Hl; lia].
  - cbn [seq map concat]. rewrite <- seq_shift, map_map.
    rewrite (map_ext _ (fun k => firstn 8 (skipn (8 * k) (skipn 8 l)))).
    + rewrite IH by (rewrite length_skipn; lia).
      change (8 * 0)%nat with 0%nat. cbn [skipn]. apply firstn_skipn.
    + intros k. rewrite skipn_skipn. do 2 f_equal. lia.
Qed.

Lemma chunk_frames_payload (l : list Z) : concat (map snd (chunk_frames l)) = l.
Proof.
  unfold chunk_frames. rewrite map_map. cbn [snd].
  apply chunks_concat.
  pose proof (Nat.div_mod_eq (length l + 7) 8) as Hd.
  pose proof (Nat.mod_upper_bound (length l + 7) 8 ltac:(lia)) as Hm. lia.
Qed.

(** Two bytes packed from a value give the value back, for every integer
    (packing raises outside 16 bits, but the identity does not need it). *)
Lemma unpack_pack_one v : Z.lor (Z.shiftl (Z.shiftr v 8) 8) (Z.land v 255) = v.
Proof.
  apply Z.bits_inj'. intros n Hn. rewrite Z.lor_spec.
  change 255 with (Z.ones 8). rewrite Z.land_ones by lia.
  destruct (Z.lt_ge_cases n 8) as [Hlow|Hhigh].
  - rewrite Z.shiftl_spec_low by lia. rewrite Z.mod_pow2_bits_low by lia. reflexivity.
  - rewrite Z.shiftl_spec by lia. rewrite Z.shiftr_spec by lia.
    rewrite Z.mod_pow2_bits_high by lia. rewrite orb_false_r. f_equal. lia.
Qed.

Lemma unpack_packed data : unpack_H (packed data) = data.
Proof.
  induction data as [|v data IH]; cbn [packed flat_map app unpack_H]; [reflexivity|].
  fold (packed data). rewrite IH, unpack_pack_one. reflexivity.
Qed.

(** send_adc_data_via_can with any number of readings (up to 7168, where
    the identifiers would leave 11 bits), each fitting 16 bits: the call
    returns normally with the state unchanged, and sends the packed bytes
    cut into chunks of at most 8, chunk k under identifier 0x100 + k, in
    (2n + 7) / 8 frames for n readings, so none for an empty vector. *)
Theorem send_adc_data_via_can_any_length w :
  spi1_locked w = false ->
  Forall (fun v => 0 <= v <= 65535) (adc_data w) ->
  len (adc_data w) <= 7168 ->
  let frames := chunk_frames (packed (adc_data w)) in
  send_adc_data_via_can w
  = (Ret tt, w, flat_map (fun f => frame_events (fst f) (snd f) ++ [Sleep 5000]) frames)
  /\ can_bursts (events (send_adc_data_via_can w)) = flat_map frame_bursts frames
  /\ length frames = ((2 * length (adc_data w) + 7) / 8)%nat
  /\ map fst frames = map (fun k => 0x100 + Z.of_nat k) (seq 0 (length frames))
  /\ concat (map snd frames) = packed (adc_data w)
  /\ Forall (fun f => (length (snd f) <= 8)%nat) frames.
Proof.
  intros Hfree Hdata Hlen frames. subst frames.
  rewrite send_adc_data_via_can_run by assumption. cbn [events snd].
  split; [reflexivity|]. split; [apply bursts_of_frames|].
  assert (Hcount : length (chunk_frames (packed (adc_data w)))
                   = ((2 * length (adc_data w) + 7) / 8)%nat).
  { unfold chunk_frames. rewrite length_map, length_seq, length_packed. reflexivity. }
  split; [exact Hcount|]. split; [|split].
  - rewrite Hcount. unfold chunk_frames. rewrite map_map, length_packed. reflexivity.
  - apply chunk_frames_payload.
  - unfold chunk_frames. apply Forall_forall. intros f Hf.
    apply in_map_iff in Hf as (k & <- & _). cbn [snd]. rewrite length_take. lia.
Qed.

Lemma send_adc_data_via_can_any_length_witness :
  let w := with_adc_data [1; 2; 3; 4; 5] (booted ramp) in
  let frames := chunk_frames (packed (adc_data w)) in
  send_adc_data_via_can w
  = (Ret tt, w, flat_map (fun f => frame_events (fst f) (snd f) ++ [Sleep 5000]) frames)
  /\ can_bursts (events (send_adc_data_via_can w)) = flat_map frame_bursts frames
  /\ length frames = ((2 * length (adc_data w) + 7) / 8)%nat
  /\ map fst frames = map (fun k => 0x100 + Z.of_nat k) (seq 0 (length frames))
  /\ concat (map snd frames) = packed (adc_data w)
  /\ Forall (fun f => (length (snd f) <= 8)%nat) frames.
Proof.
  apply (send_adc_data_via_can_any_length (with_adc_data [1; 2; 3; 4; 5] (booted ramp))).
  - reflexivity.
  - repeat (apply Forall_cons; [lia|]). apply Forall_nil.
  - vm_compute. discriminate.
Defined.

(** What send_adc_data_via_can puts on the bus can be read back: the data
    bytes of the frames, taken in order and unpacked two by two with the
    high byte first, are the readings. *)
Theorem transmitted_readings_round_trip w :
  spi1_locked w = false ->
  Forall (fun v => 0 <= v <= 65535) (adc_data w) ->
  len (adc_data w) <= 7168 ->
  unpack_H (frame_payloads (can_bursts (events (send_adc_data_via_can w))))
  = adc_data w.
Proof.
  intros Hfree Hdata Hlen.
  rewrite send_adc_data_via_can_run by assumption. cbn [events snd].
  rewrite bursts_of_frames, payloads_of_bursts, chunk_frames_payload.
  apply unpack_packed.
Qed.

Lemma transmitted_readings_round_trip_witness :
  unpack_H (frame_payloads (can_bursts (events
     (send_adc_data_via_can (final (sample_all_channels (booted ramp)))))))
  = adc_data (final (sample_all_channels (booted ramp))).
Proof.
  apply (transmitted_readings_round_trip (final (sample_all_channels (booted ramp)))).
  - reflexivity.
  - exact first_cycle_in_range.
  - vm_compute. discriminate.
Defined.

(** ** Invariants of the main loop's work *)

(** After a sampling cycle on a free bus, with an ADC that answers with
    bytes, entries 1..22 of the vector are within 0..4095, whatever they
    held before. *)
Theorem sample_all_channels_readings_in_range w :
  spi0_locked w = false ->
  length (adc_data w) = 23%nat ->
  (forall k, 0 <= snd (adc_wire w k) <= 255) ->
  Forall (fun v => 0 <= v <= 4095) (skipn 1 (adc_data (final (sample_all_channels w))))
  /\ length (adc_data (final (sample_all_channels w))) = 23%nat
  /\ adc_seq (final (sample_all_channels w)) = (23 + adc_seq w)%nat.
Proof.
  intros Hfree Hlen Hwire. rewrite sample_all_channels_run by assumption.
  cbn [final fst snd].
  destruct (list_of_length_23 _ Hlen)
    as (a0&a1&a2&a3&a4&a5&a6&a7&a8&a9&a10&a11&a12&a13&a14&a15&a16&a17&a18&a19&a20&a21&a22&Hd).
  split; [|split; [rewrite Hd|]; reflexivity].
  rewrite Hd. cbn [with_adc_data adc_data firstn app map seq skipn].
  repeat (apply Forall_cons; [apply adc_value_bound, Hwire|]). apply Forall_nil.
Qed.

Lemma ramp_bytes k : 0 <= snd (ramp k) <= 255.
Proof. apply land_255_bound. Qed.

Lemma sample_all_channels_readings_in_range_witness :
  Forall (fun v => 0 <= v <= 4095)
         (skipn 1 (adc_data (final (sample_all_channels (booted ramp)))))
  /\ length (adc_data (final (sample_all_channels (booted ramp)))) = 23%nat
  /\ adc_seq (final (sample_all_channels (booted ramp))) = (23 + adc_seq (booted ramp))%nat.
Proof.
  apply (sample_all_channels_readings_in_range (booted ramp)).
  - reflexivity.
  - reflexivity.
  - exact ramp_bytes.
Defined.

Lemma sample_all_channels_healthy w :
  healthy w ->
  outcome (sample_all_channels w) = Ret tt /\ healthy (final (sample_all_channels w)).
Proof.
  intros (H0 & H1 & Hlen & Hrange & Hwire).
  destruct (sample_all_channels_readings_in_range w H0 Hlen Hwire) as (Hnew & Hlen' & _).
  pose proof (sample_all_channels_frame (adc_data w !! 0%nat) w eq_refl) as Hkeep.
  cbn beta in Hkeep.
  rewrite sample_all_channels_run in * by assumption. cbn [outcome final fst snd] in *.
  split; [reflexivity|]. repeat split; try assumption; try apply Hwire.
  cbn [with_adc_data adc_data] in *.
  destruct (adc_data w) as [|a0 old]; [discriminate Hlen|].
  cbn [firstn app skipn] in *. apply Forall_cons; [|exact Hnew].
  apply Forall_cons_iff in Hrange. tauto.
Qed.

Lemma cycles_healthy n : forall w,
  healthy w -> outcome (cycles n w) = Ret tt /\ healthy (final (cycles n w)).
Proof.
  induction n as [|n IH]; intros w Hw; cbn [cycles].
  - split; [reflexivity|exact Hw].
  - destruct (sample_all_channels_healthy w Hw) as [Hout Hnext].
    rewrite (bind_Ret _ _ w tt (final (sample_all_channels w))
               (events (sample_all_channels w)))
      by (rewrite <- Hout; apply run_eta).
    cbn [outcome final fst snd]. apply IH, Hnext.
Qed.

(** [log_data_to_sd] returns normally in every state and leaves everything
    but the storage volume alone. *)
Lemma log_data_to_sd_keeps timestamp w :
  outcome (log_data_to_sd timestamp w) = Ret tt
  /\ adc_data (final (log_data_to_sd timestamp w)) = adc_data w
  /\ spi0_locked (final (log_data_to_sd timestamp w)) = spi0_locked w
  /\ spi1_locked (final (log_data_to_sd timestamp w)) = spi1_locked w
  /\ adc_wire (final (log_data_to_sd timestamp w)) = adc_wire w
  /\ adc_seq (final (log_data_to_sd timestamp w)) = adc_seq w.
Proof.
  rewrite log_data_to_sd_run.
  destruct (listable (sd w)), (mountable (sd w)), (writable (sd w));
    repeat split.
Qed.

(** A faulty card never stops the program: log_data_to_sd returns normally
    in every state, makes at most one remount attempt, leaves readings and
    bus locks alone, and when the file cannot be opened the log file is
    what it was. *)
Theorem log_data_to_sd_never_raises timestamp w :
  let r := log_data_to_sd timestamp w in
  outcome r = Ret tt
  /\ adc_data (final r) = adc_data w
  /\ spi0_locked (final r) = spi0_locked w
  /\ spi1_locked (final r) = spi1_locked w
  /\ (mount_attempts (events r) <= 1)%nat
  /\ (if writable (sd w) then True else log_file (sd (final r)) = log_file (sd w)).
Proof.
  intros r. subst r.
  destruct (log_data_to_sd_keeps timestamp w) as (Ho & Hd & H0 & H1 & _).
  repeat (split; [assumption|]).
  rewrite log_data_to_sd_run.
  destruct w as [adc l0 l1 wire n [li mo wr lf]].
  destruct li, mo, wr, lf; cbn; split; try lia; reflexivity.
Qed.

(** Sampling, logging and transmitting compose without an exception: from
    a state with free buses, 23 readings within 12 bits and an ADC that
    answers with bytes, any number of sampling cycles followed by a log
    record and a transmission returns normally, whatever the state of the
    card, and ends in such a state again; the transmission is 6 frames. *)
Theorem sample_log_transmit_never_raises n timestamp w :
  healthy w ->
  let prog := cycles n ;; log_data_to_sd timestamp ;; send_adc_data_via_can in
  outcome (prog w) = Ret tt
  /\ healthy (final (prog w))
  /\ length (can_bursts (events
       (send_adc_data_via_can (final ((cycles n ;; log_data_to_sd timestamp) w)))))
     = 18%nat.
Proof.
  intros Hw prog. subst prog.
  destruct (cycles_healthy n w Hw) as [Hout1 Hw1].
  set (w1 := final (cycles n w)) in *.
  destruct (log_data_to_sd_keeps timestamp w1) as (Hout2 & Hd2 & H02 & H12 & Hwire2 & _).
  set (w2 := final (log_data_to_sd timestamp w1)) in *.
  assert (Hw2 : healthy w2).
  { destruct Hw1 as (A & B & C & D & E). unfold healthy.
    rewrite Hd2, H02, H12, Hwire2. tauto. }
  assert (Hstep1 : (cycles n ;; log_data_to_sd timestamp) w
                   = (Ret tt, w2, events (cycles n w) ++ events (log_data_to_sd timestamp w1))).
  { rewrite (bind_Ret _ _ w tt w1 (events (cycles n w)))
      by (rewrite <- Hout1; apply run_eta).
    fold w2. rewrite Hout2. reflexivity. }
  destruct Hw2 as (A & B & C & D & E).
  assert (H16 : Forall (fun v => 0 <= v <= 65535) (adc_data w2))
    by (eapply Forall_impl; [|exact D]; cbn; intros; lia).
  assert (Hlen : len (adc_data w2) <= 7168) by (unfold len; rewrite C; lia).
  pose proof (send_adc_data_via_can_run w2 B H16 Hlen) as Hsend.
  split; [|split].
  - rewrite (bind_Ret _ _ w tt w1 (events (cycles n w)))
      by (rewrite <- Hout1; apply run_eta).
    cbn [outcome fst].
    rewrite (bind_Ret _ _ w1 tt w2 (events (log_data_to_sd timestamp w1)))
      by (rewrite <- Hout2; apply run_eta).
    cbn [outcome fst]. rewrite Hsend. reflexivity.
  - rewrite (bind_Ret _ _ w tt w1 (events (cycles n w)))
      by (rewrite <- Hout1; apply run_eta).
    cbn [final fst snd].
    rewrite (bind_Ret _ _ w1 tt w2 (events (log_data_to_sd timestamp w1)))
      by (rewrite <- Hout2; apply run_eta).
    cbn [final fst snd]. rewrite Hsend. cbn [final fst snd].
    unfold healthy. tauto.
  - rewrite Hstep1. cbn [final fst snd]. rewrite Hsend. cbn [events snd].
    rewrite bursts_of_frames.
    destruct (list_of_length_23 _ C)
      as (a0&a1&a2&a3&a4&a5&a6&a7&a8&a9&a10&a11&a12&a13&a14&a15&a16&a17&a18&a19&a20&a21&a22&->).
    reflexivity.
Qed.

Lemma booted_healthy wire :
  (forall k, 0 <= snd (wire k) <= 255) -> healthy (booted wire).
Proof.
  intros Hwire. unfold healthy. repeat split; try reflexivity; try apply Hwire.
  change (adc_data (booted wire)) with (repeat 0 23).
  apply Forall_forall. intros v Hv. apply repeat_spec in Hv. lia.
Qed.

Lemma sample_log_transmit_never_raises_witness :
  let prog := cycles 2 ;; log_data_to_sd "12.5" ;; send_adc_data_via_can in
  outcome (prog (booted ramp)) = Ret tt
  /\ healthy (final (prog (booted ramp)))
  /\ length (can_bursts (events
       (send_adc_data_via_can (final ((cycles 2 ;; log_data_to_sd "12.5") (booted ramp))))))
     = 18%nat.
Proof.
  apply (sample_log_transmit_never_raises 2 "12.5" (booted ramp)).
  exact (booted_healthy ramp ramp_bytes).
Defined.

(** ** Construction and repeated logging *)

(** Construction cannot fail because of the card: from any state,
    __init__ returns normally with both buses free, 23 readings all 0, the
    log file untouched, the chip selects high and the controller
    configured by the same five bursts. storage.mount is called once when
    the card initialises, whether the mount then succeeds or raises, and
    not at all when SDCard() or VfsFat() raises first; every failure is
    printed with its exception. *)
Theorem init_tolerates_card w :
  let r := __init__ w in
  outcome r = Ret tt
  /\ adc_data (final r) = repeat 0 23
  /\ spi0_locked (final r) = false
  /\ spi1_locked (final r) = false
  /\ mount_attempts (events r)
     = match mounting (sd w) with Unbound => 0%nat | _ => 1%nat end
  /\ match mounting (sd w) with
     | Mounts => In (FsMount true) (events r)
                 /\ In (Console "SD card mounted successfully") (events r)
     | MountRaises => In (FsMount false) (events r)
                      /\ In (ConsoleExn "Error mounting SD card: " MountError) (events r)
     | Unbound => In (ConsoleExn "Error mounting SD card: " OSError) (events r)
     end
  /\ log_file (sd (final r)) = log_file (sd w)
  /\ can_bursts (events r)
     = [[0xC0]; [0x02; 0x0F; 0x80]; [0x02; 0x2A; 0x04]; [0x02; 0x28; 0x00];
        [0x02; 0x0F; 0x00]]
  /\ levels_after (fun _ => false) (events r) SD_CS = true
  /\ levels_after (fun _ => false) (events r) ADC_CS = true
  /\ levels_after (fun _ => false) (events r) CAN_CS = true.
Proof.
  intros r. subst r. destruct w as [adc l0 l1 wire n [li mo wr lf]].
  destruct mo; cbn; repeat split; auto 8.
Qed.

(** Two records in a row on a card that can be reached and written: the
    header is written at most once, by the first call and only if the
    file was missing; the two rows follow the old content in order; and a
    remount, if the first call needed one, is not repeated by the second. *)
Theorem log_data_to_sd_twice t1 t2 w :
  listable (sd w) = true \/ mountable (sd w) = true ->
  writable (sd w) = true ->
  let r := (log_data_to_sd t1 ;; log_data_to_sd t2) w in
  outcome r = Ret tt
  /\ log_file (sd (final r))
     = Some (match log_file (sd w) with None => csv_header | Some c => c end
             ++ csv_row t1 (adc_data w) ++ csv_row t2 (adc_data w))%string
  /\ mount_attempts (events r) = (if listable (sd w) then 0 else 1)%nat
  /\ (length (List.filter (fun e => match e with FsOpen ModeW _ => true | _ => false end)
                     (events r))
      = match log_file (sd w) with Some _ => 0 | None => 1 end)%nat.
Proof.
  intros Hreach Hwr r. subst r.
  destruct w as [adc l0 l1 wire n [li mo wr lf]].
  cbn [sd listable mountable mounting writable] in Hreach, Hwr. subst wr.
  assert (Hok : li || match mo with Mounts => true | _ => false end = true)
    by (apply orb_true_iff; exact Hreach).
  destruct li, mo; try discriminate Hok; destruct lf as [c|];
    (erewrite bind_Ret by (rewrite log_data_to_sd_run; reflexivity));
    rewrite log_data_to_sd_run;
    unfold logged;
    cbn [outcome final events fst snd put_log with_sd set_log_file set_listable sd
         listable mountable mounting writable log_file adc_data orb mount_attempts
         app List.filter length];
    rewrite ?string_app_assoc; repeat split.
Qed.

Lemma log_data_to_sd_twice_witness :
  let r := (log_data_to_sd "1.0" ;; log_data_to_sd "2.0") (booted ramp) in
  outcome r = Ret tt
  /\ log_file (sd (final r))
     = Some (match log_file (sd (booted ramp)) with None => csv_header | Some c => c end
             ++ csv_row "1.0" (adc_data (booted ramp))
             ++ csv_row "2.0" (adc_data (booted ramp)))%string
  /\ mount_attempts (events r) = (if listable (sd (booted ramp)) then 0 else 1)%nat
  /\ (length (List.filter (fun e => match e with FsOpen ModeW _ => true | _ => false end)
                     (events r))
      = match log_file (sd (booted ramp)) with Some _ => 0 | None => 1 end)%nat.
Proof.
  apply (log_data_to_sd_twice "1.0" "2.0" (booted ramp)).
  - left. reflexivity.
  - reflexivity.
Defined.

(** ** Chip selects while sampling *)

(** During a sampling cycle on a free bus every one of the 23 exchanges on
    SPI0 is made with the ADC selected, and with the SD card (the other
    device on that bus) as deselected as it was before the call; the ADC
    is deselected again at the end and the card's select is never
    driven. *)
Theorem sample_all_channels_selects_adc w lv :
  spi0_locked w = false ->
  length (adc_data w) = 23%nat ->
  exchange_selects lv (events (sample_all_channels w)) = repeat (false, lv SD_CS) 23
  /\ levels_after lv (events (sample_all_channels w)) ADC_CS = true
  /\ levels_after lv (events (sample_all_channels w)) SD_CS = lv SD_CS
  /\ levels_after lv (events (sample_all_channels w)) CAN_CS = lv CAN_CS.
Proof.
  intros Hfree Hlen. rewrite sample_all_channels_run by assumption.
  cbn [events snd]. repeat split.
Qed.

Lemma sample_all_channels_selects_adc_witness :
  exchange_selects (fun _ => true) (events (sample_all_channels (booted ramp)))
  = repeat (false, true) 23
  /\ levels_after (fun _ => true) (events (sample_all_channels (booted ramp))) ADC_CS = true
  /\ levels_after (fun _ => true) (events (sample_all_channels (booted ramp))) SD_CS = true
  /\ levels_after (fun _ => true) (events (sample_all_channels (booted ramp))) CAN_CS = true.
Proof.
  apply (sample_all_channels_selects_adc (booted ramp) (fun _ => true)); reflexivity.
Defined.

(** ** The remount step, case by case *)

(** When the directory listing fails, log_data_to_sd never retries: it
    calls storage.mount once if self.vfs is bound and not at all if it is
    not, and returns normally. After a successful remount the record goes
    to the file whenever the file can be opened; after a remount step that
    failed, by storage.mount raising or by self.vfs missing, the line
    "Remount failed: <exception>" is printed and the state is what it
    was. *)
Theorem log_data_to_sd_remount_calls timestamp w :
  listable (sd w) = false ->
  let r := log_data_to_sd timestamp w in
  outcome r = Ret tt
  /\ mount_attempts (events r)
     = match mounting (sd w) with Unbound => 0%nat | _ => 1%nat end
  /\ match mounting (sd w) with
     | Mounts =>
         log_file (sd (final r))
         = (if writable (sd w) then Some (logged timestamp w) else log_file (sd w))
     | MountRaises =>
         final r = w
         /\ events r = [FsListdir false; Console "SD card directory issue - remounting";
                        FsMount false; ConsoleExn "Remount failed: " MountError]
     | Unbound =>
         final r = w
         /\ events r = [FsListdir false; Console "SD card directory issue - remounting";
                        ConsoleExn "Remount failed: " AttributeError]
     end
  /\ adc_data (final r) = adc_data w.
Proof.
  intros Hlist r. subst r. rewrite log_data_to_sd_run.
  destruct w as [adc l0 l1 wire n [li mo wr lf]]. cbn in Hlist. subst li.
  destruct mo, wr, lf; cbn; repeat split.
Qed.

Lemma log_data_to_sd_remount_calls_witness :
  let w := with_sd (set_listable false (sd (booted ramp))) (booted ramp) in
  let r := log_data_to_sd "12.5" w in
  outcome r = Ret tt
  /\ mount_attempts (events r)
     = match mounting (sd w) with Unbound => 0%nat | _ => 1%nat end
  /\ match mounting (sd w) with
     | Mounts =>
         log_file (sd (final r))
         = (if writable (sd w) then Some (logged "12.5" w) else log_file (sd w))
     | MountRaises =>
         final r = w
         /\ events r = [FsListdir false; Console "SD card directory issue - remounting";
                        FsMount false; ConsoleExn "Remount failed: " MountError]
     | Unbound =>
         final r = w
         /\ events r = [FsListdir false; Console "SD card directory issue - remounting";
                        ConsoleExn "Remount failed: " AttributeError]
     end
  /\ adc_data (final r) = adc_data w.
Proof.
  apply (log_data_to_sd_remount_calls "12.5"
           (with_sd (set_listable false (sd (booted ramp))) (booted ramp))).
  reflexivity.
Defined.
